(** * KML agent and its Flask wrapper: a shallow embedding

    The development follows the two Python sources.

    - [kml_agent.py]: class [KMLAgent] with [_build_system_prompt],
      [generate_kml] and the validator [_is_valid_kml]  (module [KMLAgent]);
    - [flask_server.py]: the handlers [generate_kml], [generate_kml_batch]
      and [validate_kml]                                (module [FlaskServer]).

    A Python [str] is a sequence of Unicode code points, so it is modelled as
    a list of code points ([N]); [len] is [length], slices are [skipn] and
    [firstn], [+] is [++].  The completion service (the Gemini client) is an
    external collaborator: it is a parameter of the development, a function
    that threads its own state and either delivers the text of a reply or
    raises.  Python exceptions are values of the type [exn]; code that may
    raise lives in a small state-and-exception monad.

    The console is a UTF-8 text stream with strict error handling.  What a
    [print] writes takes part in no returned value, so the text written is not
    kept; but a [print] of text that comes from the request raises when that
    text cannot be encoded, and this is modelled ([Py.print]).  The other
    calls of [print] write the program's own literals, numbers and the
    messages of exceptions, none of which carries text of the request that
    the console has not printed already; they are left out. *)

From Stdlib Require Import List Bool Arith NArith ZArith Lia.
From Stdlib Require Import Ascii PrimFloat.
From Stdlib Require String DecimalString.
Import ListNotations String.StringSyntax.

Set Implicit Arguments.
Set Warnings "-register-all".

(* String literals are read as Stdlib strings wherever one is expected. *)
Bind Scope string_scope with String.string.

(** ** Python strings *)

Module PyStr.

(** A Unicode code point. *)
Definition char : Type := N.

(** A Python [str]. *)
Definition str : Type := list char.

(** The code points of an ASCII literal. *)
Definition lit (s : String.string) : str :=
  List.map N_of_ascii (String.list_ascii_of_string s).

(** [s == t] on strings. *)
Fixpoint eqb (s t : str) : bool :=
  match s, t with
  | [], [] => true
  | a :: s', b :: t' => N.eqb a b && eqb s' t'
  | _, _ => false
  end.

(** Truth value of a string: [not s] holds exactly for the empty string. *)
Definition truthy (s : str) : bool :=
  match s with
  | [] => false
  | _ :: _ => true
  end.

(** [s.startswith(p)]. *)
Fixpoint startswith (p s : str) : bool :=
  match p with
  | [] => true
  | a :: p' =>
      match s with
      | [] => false
      | b :: s' => N.eqb a b && startswith p' s'
      end
  end.

(** [s.endswith(p)]: the last [len(p)] code points of [s] are [p]. *)
Definition endswith (p s : str) : bool :=
  (length p <=? length s)%nat && eqb (skipn (length s - length p) s) p.

(** [p in s]: [p] occurs in [s] as a contiguous run of code points. *)
Fixpoint contains (p s : str) : bool :=
  startswith p s ||
  match s with
  | [] => false
  | _ :: s' => contains p s'
  end.

(** [c.isspace()] for a single code point: the white-space code points of
    CPython's Unicode database. *)
Definition isspace (c : char) : bool :=
  ((9 <=? c) && (c <=? 13) || (28 <=? c) && (c <=? 32)
   || (c =? 133) || (c =? 160) || (c =? 5760)
   || (8192 <=? c) && (c <=? 8202)
   || (c =? 8232) || (c =? 8233) || (c =? 8239) || (c =? 8287)
   || (c =? 12288))%N.

(** [s.lstrip()]. *)
Fixpoint lstrip (s : str) : str :=
  match s with
  | [] => []
  | c :: s' => if isspace c then lstrip s' else s
  end.

(** [s.rstrip()]. *)
Definition rstrip (s : str) : str := rev (lstrip (rev s)).

(** [s.strip()]. *)
Definition strip (s : str) : str := rstrip (lstrip s).

(** Line feed and the double quote, for literals that contain them. *)
Definition nl : str := [10%N].
Definition dq : str := [34%N].

(** [str(z)] for a Python [int]. *)
Definition of_int (z : Z) : str :=
  lit (DecimalString.NilZero.string_of_int (Z.to_int z)).

(** One lower-case hexadecimal digit, and the four digits of [%04x]. *)
Definition hex_digit (d : N) : char :=
  (if d <? 10 then 48 + d else 87 + d)%N.

Definition hex4 (c : N) : str :=
  [ hex_digit ((c / 4096) mod 16); hex_digit ((c / 256) mod 16);
    hex_digit ((c / 16) mod 16); hex_digit (c mod 16) ]%N.

(** A surrogate code point, which UTF-8 cannot encode. *)
Definition is_surrogate (c : char) : bool :=
  ((55296 <=? c) && (c <=? 57343))%N.

(** How many surrogates a string begins with. *)
Fixpoint surrogate_run (s : str) : nat :=
  match s with
  | [] => 0
  | c :: s' => if is_surrogate c then S (surrogate_run s') else 0
  end.

(** The first run of surrogates of [s]: its position, counted from
    [position] for the head of [s], its first code point and its length. *)
Fixpoint first_surrogate (s : str) (position : nat)
  : option (nat * char * nat) :=
  match s with
  | [] => None
  | c :: s' =>
      if is_surrogate c then Some (position, c, S (surrogate_run s'))
      else first_surrogate s' (S position)
  end.

(** A string without surrogates. *)
Definition printable (s : str) : bool :=
  forallb (fun c => negb (is_surrogate c)) s.

End PyStr.

Import PyStr.

(** ** Python values, exceptions and the monad of the handlers *)

Module Py.

(** What [request.get_json()] can deliver: the Python image of a JSON
    document.  A [dict] is kept as its list of items; its keys are
    distinct. *)
Inductive value : Type :=
| VNone
| VBool (b : bool)
| VInt (z : Z)
| VFloat (f : float)
| VStr (s : str)
| VList (items : list value)
| VDict (items : list (str * value)).

(** [type(v).__name__]. *)
Definition type_name (v : value) : str :=
  match v with
  | VNone => lit "NoneType"
  | VBool _ => lit "bool"
  | VInt _ => lit "int"
  | VFloat _ => lit "float"
  | VStr _ => lit "str"
  | VList _ => lit "list"
  | VDict _ => lit "dict"
  end.

(** [bool(v)], the test behind [not v]. *)
Definition truth (v : value) : bool :=
  match v with
  | VNone => false
  | VBool b => b
  | VInt z => negb (z =? 0)%Z
  | VFloat f => negb (PrimFloat.eqb f PrimFloat.zero)
  | VStr s => truthy s
  | VList [] => false
  | VList (_ :: _) => true
  | VDict [] => false
  | VDict (_ :: _) => true
  end.

(** [isinstance(v, list)]. *)
Definition is_list (v : value) : bool :=
  match v with
  | VList _ => true
  | _ => false
  end.

(** The items a [for] loop over a list visits. *)
Definition list_items (v : value) : list value :=
  match v with
  | VList items => items
  | _ => []
  end.

(** Lookup of a key among the items of a [dict]. *)
Fixpoint lookup (key : str) (items : list (str * value)) : option value :=
  match items with
  | [] => None
  | (k, v) :: rest => if PyStr.eqb k key then Some v else lookup key rest
  end.

(** Exceptions, by class, with the message [str(e)] gives back.
    [ServiceError] stands for whatever the completion client raises. *)
Inductive exn : Type :=
| ValueError (msg : str)
| Exception (msg : str)
| AttributeError (msg : str)
| TypeError (msg : str)
| UnicodeEncodeError (msg : str)
| ServiceError (msg : str).

(** [str(e)]. *)
Definition exn_str (e : exn) : str :=
  match e with
  | ValueError msg | Exception msg | AttributeError msg
  | TypeError msg | UnicodeEncodeError msg | ServiceError msg => msg
  end.

Inductive outcome (A : Type) : Type :=
| Returns (a : A)
| Raises (e : exn).
Arguments Raises {A} e.

Section Monad.
(** The state of the completion service. *)
Variable W : Type.

Definition M (A : Type) : Type := W -> outcome A * W.

Definition ret {A} (a : A) : M A := fun w => (Returns a, w).

Definition raise {A} (e : exn) : M A := fun w => (Raises e, w).

Definition bind {A B} (m : M A) (k : A -> M B) : M B :=
  fun w =>
    match m w with
    | (Returns a, w') => k a w'
    | (Raises e, w') => (Raises e, w')
    end.

(** [try: m  except Exception as e: handler e]. *)
Definition try_except {A} (m : M A) (handler : exn -> M A) : M A :=
  fun w =>
    match m w with
    | (Returns a, w') => (Returns a, w')
    | (Raises e, w') => handler e w'
    end.
End Monad.

Arguments ret {W A} a.
Arguments raise {W A} e.
Arguments bind {W A B} m k.
Arguments try_except {W A} m handler.

(** [v.attr] on a value that has no such attribute. *)
Definition no_attribute (v : value) (attr : str) : exn :=
  AttributeError (lit "'" ++ type_name v ++ lit "' object has no attribute '"
                  ++ attr ++ lit "'").

(** [data.get(key, default)]: a method of [dict] only. *)
Definition get {W} (data : value) (key : str) (default : value) : M W value :=
  match data with
  | VDict items =>
      match lookup key items with
      | Some v => ret v
      | None => ret default
      end
  | _ => raise (no_attribute data (lit "get"))
  end.

(** [v.strip()]: a method of [str] only. *)
Definition strip_method {W} (v : value) : M W str :=
  match v with
  | VStr s => ret (strip s)
  | _ => raise (no_attribute v (lit "strip"))
  end.

(** [key in data] for a string [key]: a key of a [dict], an item of a
    [list], a substring of a [str]; the other values are not containers.
    The messages of [no_attribute] and of this [TypeError] follow CPython
    3.13; no statement below depends on their wording. *)
Definition contains_key {W} (key : str) (data : value) : M W bool :=
  match data with
  | VDict items =>
      ret (match lookup key items with Some _ => true | None => false end)
  | VList items =>
      ret (existsb (fun item => match item with
                                | VStr s => PyStr.eqb s key
                                | _ => false
                                end) items)
  | VStr s => ret (contains key s)
  | _ => raise (TypeError (lit "argument of type '" ++ type_name data
                           ++ lit "' is not iterable"))
  end.

(** What the UTF-8 codec raises on [line], if anything: the error names
    the first run of surrogates, by its code point when the run is a single
    one and by its first and last positions otherwise. *)
Definition utf8_encode_error (line : str) : option exn :=
  match first_surrogate line 0 with
  | None => None
  | Some (start, c, 1%nat) =>
      Some (UnicodeEncodeError
              (lit "'utf-8' codec can't encode character '\u" ++ hex4 c
               ++ lit "' in position " ++ of_int (Z.of_nat start)
               ++ lit ": surrogates not allowed"))
  | Some (start, _, run) =>
      Some (UnicodeEncodeError
              (lit "'utf-8' codec can't encode characters in position "
               ++ of_int (Z.of_nat start) ++ lit "-"
               ++ of_int (Z.of_nat (start + run - 1))
               ++ lit ": surrogates not allowed"))
  end.

(** [print(line)]. *)
Definition print {W} (line : str) : M W unit :=
  match utf8_encode_error line with
  | None => ret tt
  | Some e => raise e
  end.

End Py.

Declare Scope pymonad_scope.
Delimit Scope pymonad_scope with pymonad.
Notation "x <- m ;; k" := (Py.bind m (fun x => k))
  (at level 61, m at next level, right associativity) : pymonad_scope.

Open Scope pymonad_scope.

(** ** [kml_agent.py]: class [KMLAgent] *)

Module KMLAgent.

(** The text of the system prompt, line by line. *)
Definition _build_system_prompt : str :=
  lit "You are a KML (Keyhole Markup Language) generation expert for Google Earth and Liquid Galaxy." ++ nl
  ++ nl
  ++ lit "CRITICAL: Output ONLY the KML XML code. No explanations, no markdown, no code blocks, no additional text whatsoever." ++ nl
  ++ nl
  ++ lit "RULES:" ++ nl
  ++ lit "1. XML declaration: <?xml version=" ++ dq ++ lit "1.0" ++ dq
       ++ lit " encoding=" ++ dq ++ lit "UTF-8" ++ dq ++ lit "?>" ++ nl
  ++ lit "2. Namespaces: xmlns=" ++ dq ++ lit "http://www.opengis.net/kml/2.2" ++ dq
       ++ lit " xmlns:gx=" ++ dq ++ lit "http://www.google.com/kml/ext/2.2" ++ dq ++ nl
  ++ lit "3. For fly-to: use gx:Tour with gx:FlyTo for animations" ++ nl
  ++ lit "4. Camera elements must include: longitude, latitude, altitude, heading, tilt, roll, altitudeMode" ++ nl
  ++ lit "5. Coordinates: latitude [-90, 90], longitude [-180, 180]" ++ nl
  ++ lit "6. Defaults: altitude=1000, heading=0, tilt=45, roll=0" ++ nl
  ++ lit "7. Escape XML: &, <, >, " ++ dq ++ lit ", '" ++ nl
  ++ lit "8. Multiple stops: use multiple gx:FlyTo elements in sequence" ++ nl
  ++ lit "9. Wrap in KML Document tags" ++ nl
  ++ lit "10. Output: ONLY valid KML, nothing else" ++ nl
  ++ nl
  ++ lit "COORDINATES:" ++ nl
  ++ lit "- New York: 40.7128, -74.0060" ++ nl
  ++ lit "- Eiffel Tower: 48.8584, 2.2945" ++ nl
  ++ lit "- Tokyo: 35.6762, 139.6503" ++ nl
  ++ lit "- Sydney: -33.8568, 151.2153" ++ nl
  ++ nl
  ++ lit "Generate ONLY KML. No extra text.".

Definition required_elements : list str :=
  [ lit "<?xml"; lit "<kml"; lit "<Document>"; lit "</Document>";
    lit "</kml>" ].

Definition content_elements : list str :=
  [ lit "<Camera>"; lit "<LookAt>"; lit "<gx:FlyTo>"; lit "<Placemark>";
    lit "<LineString>"; lit "<Polygon>" ].

(** The [for element in required_elements] loop of the validator: it
    returns [False] at the first element that is not in [kml] and falls
    through when none is missing. *)
Fixpoint required_loop (elements : list str) (kml : str) : bool :=
  match elements with
  | [] => true
  | element :: rest =>
      if negb (contains element kml) then false
      else required_loop rest kml
  end.

(** [any(elem in kml for elem in [...])]. *)
Definition has_content (kml : str) : bool :=
  existsb (fun elem => contains elem kml) content_elements.

Definition _is_valid_kml (kml : str) : bool :=
  if required_loop required_elements kml then
    if negb (has_content kml) then false else true
  else false.

(** The outcome of [self.model.generate_content(...)] followed by the read
    of [response.text]: the text of the reply, or the exception raised. *)
Inductive reply : Type :=
| Text (text : str)
| Fails (e : Py.exn).

(** The clean-up of [generate_kml] between the read of the reply and the
    validator: trim, drop a leading and a trailing markdown marker, trim. *)
Definition strip_fences (text : str) : str :=
  let kml := strip text in
  let kml := if startswith (lit "```xml") kml then skipn 6 kml else kml in
  let kml := if startswith (lit "```") kml then skipn 3 kml else kml in
  let kml := if endswith (lit "```") kml
             then firstn (length kml - 3) kml else kml in
  strip kml.

Section Agent.
(** The state of the completion service, and one call to it with the
    generation configuration of the source (temperature 0.3, at most
    4096 output tokens). *)
Variable W : Type.
Variable generate_content : str -> W -> reply * W.

(** The f-string sent to the service. *)
Definition request_text (system_prompt prompt : str) : str :=
  system_prompt ++ nl ++ nl ++ lit "User request: " ++ prompt.

Definition response_text (request : str) : Py.M W str :=
  fun w =>
    match generate_content request w with
    | (Text text, w') => (Py.Returns text, w')
    | (Fails e, w') => (Py.Raises e, w')
    end.

Definition generate_kml (prompt : str) : Py.M W str :=
  if negb (truthy prompt) || negb (truthy (strip prompt)) then
    Py.raise (Py.ValueError (lit "Prompt cannot be empty"))
  else
    Py.try_except
      (let system_prompt := _build_system_prompt in
       text <- response_text
                 (system_prompt ++ nl ++ nl ++ lit "User request: "
                  ++ prompt) ;;
       if negb (truthy text) then
         Py.raise (Py.Exception (lit "No response from Gemini API"))
       else
         let kml := strip_fences text in
         if negb (_is_valid_kml kml) then
           Py.raise (Py.Exception (lit "Generated KML failed validation"))
         else Py.ret kml)
      (fun e =>
         Py.raise (Py.Exception (lit "KML generation failed: "
                                 ++ Py.exn_str e))).
End Agent.

End KMLAgent.

(** ** [flask_server.py]: the request handlers *)

Module FlaskServer.

(** What a handler returns: [jsonify(body), status]. *)
Record response : Type := Response { body : Py.value; status : N }.

(** [jsonify({'error': msg}), code]. *)
Definition error_response (msg : str) (code : N) : response :=
  Response (Py.VDict [(lit "error", Py.VStr msg)]) code.

Section Handlers.
Variable W : Type.
Variable generate_content : str -> W -> KMLAgent.reply * W.

(** [repr] of the values whose text form is not fixed by this
    development: floats, lists and dicts. *)
Variable py_repr : Py.value -> str.

(** [str(v)]. *)
Definition py_str (v : Py.value) : str :=
  match v with
  | Py.VStr s => s
  | Py.VNone => lit "None"
  | Py.VBool true => lit "True"
  | Py.VBool false => lit "False"
  | Py.VInt z => of_int z
  | Py.VFloat _ | Py.VList _ | Py.VDict _ => py_repr v
  end.

(** The two f-strings that put the prompt on the console; the first code
    point is the memo sign. *)
Definition generating_line (prompt : str) : str :=
  [128221%N] ++ lit " Generating KML for: " ++ dq ++ prompt ++ dq.

Definition batch_line (prompt : str) : str :=
  [128221%N] ++ lit " Batch: Generating KML for: " ++ dq ++ prompt ++ dq.

(** The module-level [agent], an instance of [KMLAgent]. *)
Definition agent_generate_kml : str -> Py.M W str :=
  KMLAgent.generate_kml generate_content.

(** [POST /generate-kml]; [data] is what [request.get_json()] gave. *)
Definition generate_kml (data : Py.value) : Py.M W response :=
  Py.try_except
    (if negb (Py.truth data) then
       Py.ret (error_response (lit "Request body must be JSON") 400)
     else
       query <- Py.get data (lit "query") (Py.VStr []) ;;
       prompt <- Py.strip_method query ;;
       if negb (truthy prompt) then
         Py.ret (error_response (lit "Query parameter is required") 400)
       else
         _ <- Py.print (generating_line prompt) ;;
         kml <- agent_generate_kml prompt ;;
         Py.ret (Response (Py.VDict [(lit "kml", Py.VStr kml)]) 200))
    (fun e =>
       let error_msg := Py.exn_str e in
       Py.ret (error_response error_msg 500)).

(** One entry of [results] and one of [failed]. *)
Definition result_entry (prompt kml : str) : Py.value :=
  Py.VDict [(lit "query", Py.VStr prompt); (lit "kml", Py.VStr kml)].

Definition failed_entry (prompt error : str) : Py.value :=
  Py.VDict [(lit "query", Py.VStr prompt); (lit "error", Py.VStr error)].

(** The body of [for prompt in queries], on the two lists built so far.
    [str(prompt).strip()] cannot raise, so the [prompt] the handler of the
    inner [try] sees is always the trimmed text. *)
Definition batch_item (prompt : Py.value) (lists : list Py.value * list Py.value)
  : Py.M W (list Py.value * list Py.value) :=
  let (results, failed) := lists in
  let prompt := strip (py_str prompt) in
  Py.try_except
    (if negb (truthy prompt) then
       Py.ret (results, failed)
     else
       _ <- Py.print (batch_line prompt) ;;
       kml <- agent_generate_kml prompt ;;
       Py.ret (results ++ [result_entry prompt kml], failed))
    (fun e =>
       Py.ret (results, failed ++ [failed_entry prompt (Py.exn_str e)])).

Fixpoint batch_loop (queries : list Py.value)
  (lists : list Py.value * list Py.value)
  : Py.M W (list Py.value * list Py.value) :=
  match queries with
  | [] => Py.ret lists
  | prompt :: rest =>
      lists' <- batch_item prompt lists ;;
      batch_loop rest lists'
  end.

(** [POST /generate-kml-batch]. *)
Definition generate_kml_batch (data : Py.value) : Py.M W response :=
  Py.try_except
    (missing <- (if negb (Py.truth data) then Py.ret true
                 else present <- Py.contains_key (lit "queries") data ;;
                      Py.ret (negb present)) ;;
     if missing : bool then
       Py.ret (error_response (lit "queries array is required") 400)
     else
       queries <- Py.get data (lit "queries") (Py.VList []) ;;
       if negb (Py.is_list queries) || negb (Py.truth queries) then
         Py.ret (error_response
                   (lit "queries must be a non-empty array") 400)
       else
         lists <- batch_loop (Py.list_items queries) ([], []) ;;
         let (results, failed) := lists : list Py.value * list Py.value in
         Py.ret (Response
                   (Py.VDict [(lit "results", Py.VList results);
                              (lit "failed", Py.VList failed)]) 200))
    (fun e =>
       let error_msg := Py.exn_str e in
       Py.ret (error_response error_msg 500)).

(** [POST /validate-kml]. *)
Definition validate_kml (data : Py.value) : Py.M W response :=
  Py.try_except
    (missing <- (if negb (Py.truth data) then Py.ret true
                 else present <- Py.contains_key (lit "kml") data ;;
                      Py.ret (negb present)) ;;
     if missing : bool then
       Py.ret (error_response (lit "kml parameter is required") 400)
     else
       field <- Py.get data (lit "kml") (Py.VStr []) ;;
       kml <- Py.strip_method field ;;
       let is_valid := KMLAgent._is_valid_kml kml in
       Py.ret (Response
                 (Py.VDict [(lit "valid", Py.VBool is_valid);
                            (lit "length", Py.VInt (Z.of_nat (length kml)))])
                 200))
    (fun e => Py.ret (error_response (Py.exn_str e) 500)).
End Handlers.

End FlaskServer.

(** ** Test doubles and sample data *)

Module Fixtures.

(** A completion service that plays back a script: each call delivers the
    next reply of the list, and fails once the script is used up. *)
Definition scripted (request : str) (script : list KMLAgent.reply)
  : KMLAgent.reply * list KMLAgent.reply :=
  match script with
  | [] => (KMLAgent.Fails (Py.ServiceError (lit "service unavailable")), [])
  | r :: rest => (r, rest)
  end.

(** A small document that passes the validator. *)
Definition sample_kml : str :=
  lit "<?xml version='1.0' encoding='UTF-8'?><kml xmlns='http://www.opengis.net/kml/2.2'><Document><gx:FlyTo></gx:FlyTo></Document></kml>".

(** The same document in a markdown block tagged [kml]. *)
Definition sample_kml_block : str :=
  lit "```kml" ++ nl ++ sample_kml ++ nl ++ lit "```".


(** Text that is not KML at all. *)
Definition sample_junk : str := lit "Sorry, I cannot help with that.".

(** A stand-in for [repr] on floats, lists and dicts. *)
Definition sample_repr (v : Py.value) : str := lit "<" ++ Py.type_name v ++ lit ">".

End Fixtures.

(** ** Specification-level notions used in the statements *)

Module Spec.

(** [p] occurs in [s] as a contiguous substring. *)
Definition occurs_in (p s : str) : Prop :=
  exists before after : str, s = before ++ p ++ after.

(** Every required token of the validator occurs in [s]. *)
Definition all_required (s : str) : Prop :=
  occurs_in (lit "<?xml") s /\ occurs_in (lit "<kml") s
  /\ occurs_in (lit "<Document>") s /\ occurs_in (lit "</Document>") s
  /\ occurs_in (lit "</kml>") s.

(** Some geographic-content element occurs in [s]. *)
Definition some_content (s : str) : Prop :=
  occurs_in (lit "<Camera>") s \/ occurs_in (lit "<LookAt>") s
  \/ occurs_in (lit "<gx:FlyTo>") s \/ occurs_in (lit "<Placemark>") s
  \/ occurs_in (lit "<LineString>") s \/ occurs_in (lit "<Polygon>") s.

(** The opening and closing markers of a markdown code block. *)
Definition fence : str := lit "```".
Definition fence_xml : str := lit "```xml".

Section BatchSpec.
Variable W : Type.
Variable generate_content : str -> W -> KMLAgent.reply * W.
Variable py_repr : Py.value -> str.

(** The text of a query: coerced to a string, then trimmed. *)
Definition query_text (query : Py.value) : str :=
  strip (FlaskServer.py_str py_repr query).

(** The texts of the queries that are not blank, in the order of the input. *)
Definition nonblank (queries : list Py.value) : list str :=
  filter truthy (List.map query_text queries).

(** What the batch does for one query that is not blank: the line on the
    console, then the pipeline. *)
Definition attempt (prompt : str) : Py.M W str :=
  _ <- Py.print (FlaskServer.batch_line prompt) ;;
  KMLAgent.generate_kml generate_content prompt.

(** One attempt on each prompt, in order, each starting from the service
    state the previous one left, whatever its outcome was. *)
Fixpoint outcomes (prompts : list str) (w : W)
  : list (str * Py.outcome str) * W :=
  match prompts with
  | [] => ([], w)
  | prompt :: rest =>
      let (o, w1) := attempt prompt w in
      let (os, w2) := outcomes rest w1 in
      ((prompt, o) :: os, w2)
  end.


(** The entries of the runs that returned, in order. *)
Definition successes (os : list (str * Py.outcome str)) : list Py.value :=
  flat_map (fun po : str * Py.outcome str =>
              match snd po with
              | Py.Returns kml => [FlaskServer.result_entry (fst po) kml]
              | Py.Raises _ => []
              end) os.

(** The entries of the runs that raised, in order. *)
Definition failures (os : list (str * Py.outcome str)) : list Py.value :=
  flat_map (fun po : str * Py.outcome str =>
              match snd po with
              | Py.Returns _ => []
              | Py.Raises e => [FlaskServer.failed_entry (fst po) (Py.exn_str e)]
              end) os.

End BatchSpec.

(** The body of a successful batch response. *)
Definition batch_body (results failed : list Py.value) : Py.value :=
  Py.VDict [(lit "results", Py.VList results); (lit "failed", Py.VList failed)].

(** A request body that is a JSON object with the given field. *)
Definition has_field (data : Py.value) (key : str) (v : Py.value) : Prop :=
  exists items, data = Py.VDict items /\ Py.lookup key items = Some v.

(** A request body that is a JSON object without the given field. *)
Definition lacks_field (data : Py.value) (key : str) : Prop :=
  exists items, data = Py.VDict items /\ Py.lookup key items = None.

End Spec.

Import Spec.

(** ** [kml_agent.py] and [flask_server.py]: construction and start-up *)

Module Startup.

(** What [__init__] leaves in place: the key handed to [genai.configure]
    and the name of the generative model. *)
Record agent : Type := Agent { api_key : str; model_name : str }.

(** [bool(x)] for an [Optional[str]]: [None] and the empty string are
    false. *)
Definition optional_truth (x : option str) : bool :=
  match x with
  | None => false
  | Some s => truthy s
  end.

(** [x or y] on [Optional[str]]. *)
Definition or_else (x y : option str) : option str :=
  if optional_truth x then x else y.

(** [KMLAgent.__init__]; [environ] is the process environment behind
    [os.getenv]. *)
Definition __init__ (environ : str -> option str) (api_key : option str)
  : Py.outcome agent :=
  let key := or_else api_key (environ (lit "GOOGLE_API_KEY")) in
  match key with
  | Some k =>
      if negb (truthy k) then
        Py.Raises
          (Py.ValueError
             (lit "Google API key required. Pass api_key parameter or set GOOGLE_API_KEY env var."))
      else Py.Returns (Agent k (lit "gemini-3-flash-preview"))
  | None =>
      Py.Raises
        (Py.ValueError
           (lit "Google API key required. Pass api_key parameter or set GOOGLE_API_KEY env var."))
  end.

(** How the import of [flask_server.py] ends: with the module-level
    [agent] in place, with [sys.exit(code)], or with an exception that
    nothing catches. *)
Inductive start : Type :=
| Serving (a : agent)
| Exited (code : Z)
| Crashed (e : Py.exn).

(** The module-level [try] of [flask_server.py]: only [ValueError] is
    caught. *)
Definition flask_server_start (environ : str -> option str) : start :=
  match __init__ environ (environ (lit "GOOGLE_API_KEY")) with
  | Py.Returns a => Serving a
  | Py.Raises (Py.ValueError _) => Exited 1
  | Py.Raises e => Crashed e
  end.

End Startup.

(** ** Further notions used in the statements *)

Module Shape.

(** The prefix [generate_kml] puts in front of every failure it wraps. *)
Definition failure_prefix : str := lit "KML generation failed: ".

(** A string that trimming leaves as it is. *)
Definition trimmed (s : str) : Prop := strip s = s.

(** A token that is not empty and neither begins nor ends with white
    space. *)
Definition solid (p : str) : bool :=
  match p with
  | [] => false
  | c :: _ => negb (isspace c)
  end
  && match rev p with
     | [] => false
     | c :: _ => negb (isspace c)
     end.



(** An environment in which only [GOOGLE_API_KEY] may be set. *)
Definition environ_with (key : option str) (name : str) : option str :=
  if PyStr.eqb name (lit "GOOGLE_API_KEY") then key else None.

End Shape.

Import Shape.

(** ** Strings: the boolean tests against their specifications *)

Section StringFacts.

Lemma eqb_eq (s t : str) : PyStr.eqb s t = true <-> s = t.
Proof.
  revert t; induction s as [|a s IH]; intros [|b t]; simpl;
    try (split; [discriminate | discriminate]); try tauto.
  rewrite andb_true_iff, N.eqb_eq, IH.
  split; [intros [-> ->]; reflexivity | intros [= -> ->]; auto].
Qed.

Lemma eqb_refl (s : str) : PyStr.eqb s s = true.
Proof. apply eqb_eq; reflexivity. Qed.

Lemma startswith_spec (p s : str) :
  startswith p s = true <-> exists after, s = p ++ after.
Proof.
  revert s; induction p as [|a p IH]; intros s; simpl.
  - split; [intros _; exists s; reflexivity | reflexivity].
  - destruct s as [|b s].
    + split; [discriminate | intros [after [=]]].
    + rewrite andb_true_iff, N.eqb_eq, IH. split.
      * intros [-> [after ->]]. exists after; reflexivity.
      * intros [after [= -> ->]]. split; [reflexivity | exists after; reflexivity].
Qed.

Lemma startswith_app (p s : str) : startswith p (p ++ s) = true.
Proof. apply startswith_spec; exists s; reflexivity. Qed.

Lemma contains_spec (p s : str) : contains p s = true <-> occurs_in p s.
Proof.
  unfold occurs_in. induction s as [|c s IH]; simpl.
  - rewrite orb_false_r, startswith_spec. split.
    + intros [after H]. exists [], after. exact H.
    + intros [[|b before] [after H]].
      * exists after; exact H.
      * discriminate H.
  - rewrite orb_true_iff, startswith_spec, IH. split.
    + intros [[after H] | [before [after H]]].
      * exists [], after. exact H.
      * exists (c :: before), after. rewrite H; reflexivity.
    + intros [[|b before] [after H]].
      * left. exists after; exact H.
      * right. injection H as _ H. exists before, after; exact H.
Qed.

Lemma occurs_in_trans (p s t : str) :
  occurs_in p s -> occurs_in s t -> occurs_in p t.
Proof.
  intros [b1 [a1 ->]] [b2 [a2 ->]].
  exists (b2 ++ b1), (a1 ++ a2). now rewrite <- !app_assoc.
Qed.

Lemma lstrip_idem (s : str) : lstrip (lstrip s) = lstrip s.
Proof.
  induction s as [|c s IH]; [reflexivity|]. simpl.
  destruct (isspace c) eqn:Hc; [exact IH|]. simpl. now rewrite Hc.
Qed.

Lemma lstrip_snoc (s : str) (c : char) :
  isspace c = false -> lstrip (s ++ [c]) = lstrip s ++ [c].
Proof.
  intros Hc. induction s as [|d s IH]; simpl.
  - now rewrite Hc.
  - destruct (isspace d); [exact IH | reflexivity].
Qed.

Lemma rstrip_cons (c : char) (s : str) :
  isspace c = false -> rstrip (c :: s) = c :: rstrip s.
Proof.
  intros Hc. unfold rstrip. simpl rev.
  now rewrite (lstrip_snoc _ _ Hc), rev_app_distr.
Qed.

Lemma rstrip_idem (s : str) : rstrip (rstrip s) = rstrip s.
Proof. unfold rstrip. now rewrite rev_involutive, lstrip_idem. Qed.

Lemma lstrip_rstrip_lstrip (s : str) : lstrip (rstrip (lstrip s)) = rstrip (lstrip s).
Proof.
  induction s as [|c s IH]; [reflexivity|]. simpl.
  destruct (isspace c) eqn:Hc; [exact IH|].
  rewrite (rstrip_cons _ _ Hc). simpl. now rewrite Hc.
Qed.

(** Trimming twice is trimming once. *)
Lemma strip_idem (s : str) : strip (strip s) = strip s.
Proof.
  unfold strip. now rewrite lstrip_rstrip_lstrip, rstrip_idem.
Qed.

Lemma startswith_app_l (p q s : str) :
  startswith (p ++ q) s = true -> startswith p s = true.
Proof.
  rewrite !startswith_spec. intros [after ->].
  exists (q ++ after). now rewrite app_assoc.
Qed.

Lemma skipn_length_app (s p : str) : skipn (length s) (s ++ p) = p.
Proof. induction s as [|c s IH]; [reflexivity | exact IH]. Qed.

Lemma endswith_app (s p : str) : endswith p (s ++ p) = true.
Proof.
  unfold endswith. rewrite length_app, Nat.add_sub, skipn_length_app, eqb_refl.
  rewrite andb_true_r. apply Nat.leb_le. lia.
Qed.

Lemma firstn_drop_suffix (s p : str) :
  firstn (length (s ++ p) - length p) (s ++ p) = s.
Proof.
  rewrite length_app, Nat.add_sub, firstn_app, Nat.sub_diag, firstn_all.
  cbn [firstn]. apply app_nil_r.
Qed.

End StringFacts.

(** ** The validator *)

Section ValidatorFacts.

Import KMLAgent.

Lemma required_loop_spec (elements : list str) (kml : str) :
  required_loop elements kml = true
  <-> Forall (fun element => occurs_in element kml) elements.
Proof.
  induction elements as [|element rest IH]; simpl.
  - split; [constructor | reflexivity].
  - rewrite Forall_cons_iff, <- IH, <- contains_spec.
    destruct (contains element kml); simpl; intuition discriminate.
Qed.

Lemma has_content_spec (kml : str) :
  has_content kml = true
  <-> Exists (fun elem => occurs_in elem kml) content_elements.
Proof.
  unfold has_content. rewrite existsb_exists, Exists_exists.
  split; intros [elem [Hin H]]; exists elem; split; auto;
    apply contains_spec; exact H.
Qed.

Lemma all_required_Forall (s : str) :
  all_required s <-> Forall (fun element => occurs_in element s) required_elements.
Proof.
  unfold all_required, required_elements.
  rewrite !Forall_cons_iff, Forall_nil_iff. tauto.
Qed.

Lemma some_content_Exists (s : str) :
  some_content s <-> Exists (fun elem => occurs_in elem s) content_elements.
Proof.
  unfold some_content, content_elements.
  rewrite !Exists_cons, Exists_nil. tauto.
Qed.

Lemma is_valid_kml_spec (s : str) :
  _is_valid_kml s = true <-> all_required s /\ some_content s.
Proof.
  rewrite all_required_Forall, some_content_Exists,
    <- required_loop_spec, <- has_content_spec.
  unfold _is_valid_kml.
  destruct (required_loop required_elements s), (has_content s); simpl;
    intuition discriminate.
Qed.

Lemma is_valid_kml_false (s : str) :
  _is_valid_kml s = false <-> ~ (all_required s /\ some_content s).
Proof.
  rewrite <- is_valid_kml_spec. destruct (_is_valid_kml s); split; intros H;
    try reflexivity; try discriminate; try (intros [=]).
  exfalso; apply H; reflexivity.
Qed.

End ValidatorFacts.

(** C2.  [_is_valid_kml s] is true exactly when [s] contains each of the
    five required tokens and at least one geographic-content element.  In
    particular the empty string is rejected, a string that lacks any one
    required token is rejected, and a string with every required token but
    no content element is rejected. *)
Theorem is_valid_kml_characterisation (s : str) :
  (KMLAgent._is_valid_kml s = true <-> all_required s /\ some_content s)
  /\ KMLAgent._is_valid_kml [] = false
  /\ (forall element,
        In element KMLAgent.required_elements ->
        ~ occurs_in element s -> KMLAgent._is_valid_kml s = false)
  /\ (all_required s -> ~ some_content s -> KMLAgent._is_valid_kml s = false).
Proof.
  split; [apply is_valid_kml_spec|].
  split; [reflexivity|].
  split.
  - intros element Hin Hmissing. apply is_valid_kml_false.
    intros [Hall _]. apply Hmissing.
    apply all_required_Forall in Hall.
    rewrite Forall_forall in Hall. now apply Hall.
  - intros _ Hnone. apply is_valid_kml_false. tauto.
Qed.

(** C9.  The validator is monotone under extension: a string that contains
    a valid document as a contiguous substring is valid as well. *)
Theorem is_valid_kml_monotone (s t : str) :
  KMLAgent._is_valid_kml s = true -> occurs_in s t ->
  KMLAgent._is_valid_kml t = true.
Proof.
  rewrite !is_valid_kml_spec. intros [Hreq Hcontent] Hst.
  unfold all_required, some_content in *.
  split.
  - repeat match goal with
           | H : _ /\ _ |- _ => destruct H
           | |- _ /\ _ => split
           end; eauto using occurs_in_trans.
  - repeat match goal with
           | H : _ \/ _ |- _ => destruct H
           end; eauto 10 using occurs_in_trans.
Qed.

Lemma is_valid_kml_monotone_witness :
  KMLAgent._is_valid_kml Fixtures.sample_kml = true
  /\ occurs_in Fixtures.sample_kml
       (lit "```xml" ++ Fixtures.sample_kml ++ lit "<!-- end -->")
  /\ KMLAgent._is_valid_kml
       (lit "```xml" ++ Fixtures.sample_kml ++ lit "<!-- end -->") = true.
Proof.
  assert (Hsub : occurs_in Fixtures.sample_kml
                   (lit "```xml" ++ Fixtures.sample_kml ++ lit "<!-- end -->"))
    by (exists (lit "```xml"), (lit "<!-- end -->"); reflexivity).
  split; [reflexivity|]. split; [exact Hsub|].
  apply (is_valid_kml_monotone (s := Fixtures.sample_kml)); [reflexivity | exact Hsub].
Defined.

(** ** The generation pipeline of [KMLAgent] *)

Section AgentFacts.

Import KMLAgent.

Variable W : Type.
Variable generate_content : str -> W -> reply * W.

Lemma strip_nil : strip [] = [].
Proof. reflexivity. Qed.

Lemma truthy_strip (s : str) : truthy (strip s) = true -> truthy s = true.
Proof. destruct s; [rewrite strip_nil; discriminate | reflexivity]. Qed.

(** What [generate_kml] does with a non-blank prompt, by the reply of the
    service. *)
Lemma generate_kml_run (prompt : str) (w : W) :
  truthy (strip prompt) = true ->
  generate_kml generate_content prompt w =
  match generate_content (request_text _build_system_prompt prompt) w with
  | (Text text, w') =>
      if truthy text then
        if _is_valid_kml (strip_fences text) then
          (Py.Returns (strip_fences text), w')
        else
          (Py.Raises
             (Py.Exception (lit "KML generation failed: "
                            ++ lit "Generated KML failed validation")), w')
      else
        (Py.Raises
           (Py.Exception (lit "KML generation failed: "
                          ++ lit "No response from Gemini API")), w')
  | (Fails e, w') =>
      (Py.Raises
         (Py.Exception (lit "KML generation failed: " ++ Py.exn_str e)), w')
  end.
Proof.
  intros Hprompt. unfold generate_kml.
  rewrite Hprompt, (truthy_strip _ Hprompt). cbn [negb orb].
  unfold Py.try_except, Py.bind, response_text, Py.raise, Py.ret.
  destruct (generate_content _ w) as [[text|e] w']; [|reflexivity].
  destruct (truthy text); cbn [negb]; [|reflexivity].
  destruct (_is_valid_kml (strip_fences text)); reflexivity.
Qed.

(** A blank prompt is refused before the service is called. *)
Lemma generate_kml_blank (prompt : str) (w : W) :
  truthy (strip prompt) = false ->
  generate_kml generate_content prompt w =
  (Py.Raises (Py.ValueError (lit "Prompt cannot be empty")), w).
Proof.
  intros Hprompt. unfold generate_kml. rewrite Hprompt.
  rewrite orb_true_r. reflexivity.
Qed.

End AgentFacts.

(** C1.  For a prompt that is not empty after trimming, [generate_kml]
    either returns a string that passes [_is_valid_kml] or raises; a string
    that fails the validator is never returned. *)
Theorem generate_kml_returns_valid_or_raises
  (W : Type) (generate_content : str -> W -> KMLAgent.reply * W)
  (prompt : str) (w : W) :
  truthy (strip prompt) = true ->
  (exists kml w',
      KMLAgent.generate_kml generate_content prompt w = (Py.Returns kml, w')
      /\ KMLAgent._is_valid_kml kml = true)
  \/ (exists e w',
        KMLAgent.generate_kml generate_content prompt w = (Py.Raises e, w')).
Proof.
  intros Hprompt. rewrite (generate_kml_run generate_content _ w Hprompt).
  destruct (generate_content _ w) as [[text|e] w'].
  - destruct (truthy text).
    + destruct (KMLAgent._is_valid_kml (KMLAgent.strip_fences text)) eqn:Hvalid.
      * left. eauto.
      * right. eauto.
    + right. eauto.
  - right. eauto.
Qed.

Lemma generate_kml_returns_valid_or_raises_witness :
  truthy (strip (lit "Fly to Eiffel Tower")) = true
  /\ ((exists kml w',
         KMLAgent.generate_kml Fixtures.scripted (lit "Fly to Eiffel Tower")
           [KMLAgent.Text Fixtures.sample_kml] = (Py.Returns kml, w')
         /\ KMLAgent._is_valid_kml kml = true)
      \/ (exists e w',
            KMLAgent.generate_kml Fixtures.scripted (lit "Fly to Eiffel Tower")
              [KMLAgent.Text Fixtures.sample_kml] = (Py.Raises e, w'))).
Proof.
  split; [reflexivity|].
  apply generate_kml_returns_valid_or_raises. reflexivity.
Defined.

(** C8.  When the completion service replies with the empty string,
    [generate_kml] raises the exception that says no response was received;
    it returns nothing. *)
Theorem generate_kml_empty_reply
  (W : Type) (generate_content : str -> W -> KMLAgent.reply * W)
  (prompt : str) (w w' : W) :
  truthy (strip prompt) = true ->
  generate_content
    (KMLAgent.request_text KMLAgent._build_system_prompt prompt) w
  = (KMLAgent.Text [], w') ->
  KMLAgent.generate_kml generate_content prompt w
  = (Py.Raises
       (Py.Exception
          (lit "KML generation failed: No response from Gemini API")), w').
Proof.
  intros Hprompt Hreply.
  rewrite (generate_kml_run generate_content _ w Hprompt), Hreply.
  reflexivity.
Qed.

Lemma generate_kml_empty_reply_witness :
  KMLAgent.generate_kml Fixtures.scripted (lit "Fly to Eiffel Tower")
    [KMLAgent.Text []; KMLAgent.Text Fixtures.sample_kml]
  = (Py.Raises
       (Py.Exception
          (lit "KML generation failed: No response from Gemini API")),
     [KMLAgent.Text Fixtures.sample_kml]).
Proof.
  apply generate_kml_empty_reply; reflexivity.
Defined.

(** ** The console *)

Section ConsoleFacts.

Lemma first_surrogate_printable (s : str) :
  printable s = true -> forall position, first_surrogate s position = None.
Proof.
  unfold printable. induction s as [|c s IH]; intros Hs position;
    [reflexivity|].
  cbn [forallb] in Hs. apply andb_true_iff in Hs. destruct Hs as [Hc Hs].
  apply negb_true_iff in Hc. cbn [first_surrogate]. rewrite Hc. now apply IH.
Qed.


Lemma utf8_encode_error_printable (line : str) :
  printable line = true -> Py.utf8_encode_error line = None.
Proof.
  intros Hline. unfold Py.utf8_encode_error.
  now rewrite (first_surrogate_printable _ Hline).
Qed.

(** The codec raises on a line exactly when the line holds a surrogate, and
    what it raises is a UnicodeEncodeError. *)
Lemma utf8_encode_error_some (line : str) (e : Py.exn) :
  Py.utf8_encode_error line = Some e ->
  printable line = false /\ exists msg, e = Py.UnicodeEncodeError msg.
Proof.
  intros Herror. split.
  - destruct (printable line) eqn:Hline; [|reflexivity].
    rewrite (utf8_encode_error_printable _ Hline) in Herror. discriminate.
  - unfold Py.utf8_encode_error in Herror.
    destruct (first_surrogate line 0) as [[[start c] [|[|run]]]|];
      try discriminate; injection Herror as <-; eauto.
Qed.


Lemma printable_app (s t : str) :
  printable (s ++ t) = printable s && printable t.
Proof. unfold printable. apply forallb_app. Qed.

Lemma printable_generating_line (prompt : str) :
  printable (FlaskServer.generating_line prompt) = printable prompt.
Proof.
  unfold FlaskServer.generating_line. rewrite !printable_app.
  change (printable [128221%N]) with true.
  change (printable (lit " Generating KML for: ")) with true.
  change (printable dq) with true.
  now rewrite andb_true_r.
Qed.

Lemma printable_batch_line (prompt : str) :
  printable (FlaskServer.batch_line prompt) = printable prompt.
Proof.
  unfold FlaskServer.batch_line. rewrite !printable_app.
  change (printable [128221%N]) with true.
  change (printable (lit " Batch: Generating KML for: ")) with true.
  change (printable dq) with true.
  now rewrite andb_true_r.
Qed.

Lemma print_printable (W : Type) (line : str) (w : W) :
  printable line = true -> Py.print line w = (Py.Returns tt, w).
Proof.
  intros Hline. unfold Py.print.
  now rewrite (utf8_encode_error_printable _ Hline).
Qed.

End ConsoleFacts.

(** ** The batch loop of [flask_server.py] *)

Section BatchFacts.

Import FlaskServer.

Variable W : Type.
Variable generate_content : str -> W -> KMLAgent.reply * W.
Variable py_repr : Py.value -> str.

Local Abbreviation item := (batch_item generate_content py_repr).
Local Abbreviation loop := (batch_loop generate_content py_repr).
Local Abbreviation text_of := (query_text py_repr).
Local Abbreviation run := (outcomes generate_content).

(** A blank query leaves both lists and the service untouched. *)
Lemma batch_item_blank (query : Py.value) (lists : list Py.value * list Py.value) (w : W) :
  truthy (text_of query) = false ->
  item query lists w = (Py.Returns lists, w).
Proof.
  intros Hblank. destruct lists as [results failed].
  unfold batch_item. fold (text_of query). rewrite Hblank. reflexivity.
Qed.

(** A query that is not blank costs one attempt and adds one entry to
    exactly one of the two lists. *)
Lemma batch_item_nonblank (query : Py.value) (results failed : list Py.value) (w : W) :
  truthy (text_of query) = true ->
  item query (results, failed) w =
  match attempt generate_content (text_of query) w with
  | (Py.Returns kml, w') =>
      (Py.Returns (results ++ [result_entry (text_of query) kml], failed), w')
  | (Py.Raises e, w') =>
      (Py.Returns
         (results, failed ++ [failed_entry (text_of query) (Py.exn_str e)]), w')
  end.
Proof.
  intros Hquery. unfold batch_item. fold (text_of query). rewrite Hquery.
  cbn [negb].
  unfold attempt, Py.try_except, Py.bind, agent_generate_kml, Py.ret.
  destruct (Py.print (batch_line (text_of query)) w) as [[[]|e] w0];
    [|reflexivity].
  destruct (KMLAgent.generate_kml generate_content (text_of query) w0)
    as [[kml|e] w']; reflexivity.
Qed.

(** The loop never raises, and what it appends to the two lists are the
    entries of the attempts on the non-blank queries. *)
Lemma batch_loop_outcomes (queries : list Py.value) :
  forall (results failed : list Py.value) (w : W),
    loop queries (results, failed) w =
    (Py.Returns (results ++ successes (fst (run (nonblank py_repr queries) w)),
                 failed ++ failures (fst (run (nonblank py_repr queries) w))),
     snd (run (nonblank py_repr queries) w)).
Proof.
  induction queries as [|query rest IH]; intros results failed w.
  - simpl. unfold Py.ret. now rewrite !app_nil_r.
  - cbn [batch_loop]. unfold Py.bind. unfold nonblank. cbn [List.map filter].
    fold (nonblank py_repr rest).
    destruct (truthy (text_of query)) eqn:Hquery.
    + rewrite (batch_item_nonblank _ _ _ _ Hquery). cbn [outcomes].
      destruct (attempt generate_content (text_of query) w)
        as [[kml|e] w1]; rewrite IH;
        destruct (run (nonblank py_repr rest) w1) as [os w2];
        cbn [fst snd successes failures flat_map app];
        now rewrite <- ?app_assoc.
    + rewrite (batch_item_blank _ _ _ Hquery). apply IH.
Qed.



(** On prompts the console can print, an attempt is a run of the
    pipeline. *)
Lemma attempt_printable (prompt : str) (w : W) :
  printable prompt = true ->
  attempt generate_content prompt w
  = KMLAgent.generate_kml generate_content prompt w.
Proof.
  intros Hprompt. unfold attempt, Py.bind.
  rewrite print_printable by now rewrite printable_batch_line.
  now destruct (KMLAgent.generate_kml generate_content prompt w) as [[kml|e] w'].
Qed.



End BatchFacts.

(** ** The handlers of [flask_server.py] *)

Section HandlerFacts.

Import FlaskServer.

Variable W : Type.
Variable generate_content : str -> W -> KMLAgent.reply * W.
Variable py_repr : Py.value -> str.

Lemma lookup_some_truth (key : str) (items : list (str * Py.value)) (v : Py.value) :
  Py.lookup key items = Some v -> Py.truth (Py.VDict items) = true.
Proof. destruct items; [discriminate | reflexivity]. Qed.

(** The batch handler on a JSON object, by its [queries] field. *)
Lemma generate_kml_batch_dict (items : list (str * Py.value)) (w : W) :
  generate_kml_batch generate_content py_repr (Py.VDict items) w =
  match Py.lookup (lit "queries") items with
  | None =>
      (Py.Returns (error_response (lit "queries array is required") 400), w)
  | Some (Py.VList (query :: rest)) =>
      match batch_loop generate_content py_repr (query :: rest) ([], []) w with
      | (Py.Returns (results, failed), w') =>
          (Py.Returns (Response (batch_body results failed) 200), w')
      | (Py.Raises e, w') =>
          (Py.Returns (error_response (Py.exn_str e) 500), w')
      end
  | Some _ =>
      (Py.Returns
         (error_response (lit "queries must be a non-empty array") 400), w)
  end.
Proof.
  unfold generate_kml_batch, Py.try_except, Py.bind, Py.contains_key, Py.get.
  destruct items as [|item items]; [reflexivity|].
  cbn [Py.truth negb].
  destruct (Py.lookup (lit "queries") (item :: items)) as [queries|];
    [|reflexivity].
  unfold Py.ret. cbn [negb].
  destruct queries as [| | | | |[|query rest]|]; try reflexivity.
  cbn [Py.is_list Py.truth negb orb Py.list_items].
  destruct (batch_loop _ _ _ _ w) as [[[results failed]|e] w']; reflexivity.
Qed.

(** A body whose truth value is false is refused at once. *)
Lemma generate_kml_batch_falsy (data : Py.value) (w : W) :
  Py.truth data = false ->
  generate_kml_batch generate_content py_repr data w =
  (Py.Returns (error_response (lit "queries array is required") 400), w).
Proof.
  intros Hdata. unfold generate_kml_batch, Py.try_except, Py.bind.
  rewrite Hdata. reflexivity.
Qed.

(** The client errors of the batch handler: a JSON object without
    [queries], or whose [queries] is not a list or is the empty list, and
    any body whose truth value is false.  The service is not called. *)
Lemma generate_kml_batch_client_error (data : Py.value) (w : W) :
  Py.truth data = false
  \/ lacks_field data (lit "queries")
  \/ (exists v, has_field data (lit "queries") v
                /\ (Py.is_list v = false \/ v = Py.VList [])) ->
  exists msg,
    generate_kml_batch generate_content py_repr data w =
    (Py.Returns (error_response msg 400), w).
Proof.
  intros [Hfalsy | [[items [-> Hnone]] | [v [[items [-> Hsome]] Hshape]]]].
  - rewrite (generate_kml_batch_falsy _ w Hfalsy). eauto.
  - rewrite generate_kml_batch_dict, Hnone. eauto.
  - rewrite generate_kml_batch_dict, Hsome.
    destruct Hshape as [Hnot_list | ->]; [|eauto].
    destruct v as [| | | | |[|query rest]|]; try discriminate; eauto.
Qed.

(** The validation handler on a JSON object with a string under [kml]. *)
Lemma validate_kml_string (items : list (str * Py.value)) (s : str) (w : W) :
  Py.lookup (lit "kml") items = Some (Py.VStr s) ->
  validate_kml (Py.VDict items) w =
  (Py.Returns
     (Response
        (Py.VDict
           [(lit "valid", Py.VBool (KMLAgent._is_valid_kml (strip s)));
            (lit "length", Py.VInt (Z.of_nat (length (strip s))))]) 200), w).
Proof.
  intros Hkml.
  unfold validate_kml, Py.try_except, Py.bind, Py.contains_key, Py.get.
  rewrite (lookup_some_truth _ _ Hkml), Hkml. reflexivity.
Qed.

(** The single-query handler on a JSON object with a non-blank string under
    [query] that the console can print: one run of the pipeline on the
    trimmed text. *)
Lemma generate_kml_query (items : list (str * Py.value)) (query : str) (w : W) :
  Py.lookup (lit "query") items = Some (Py.VStr query) ->
  truthy (strip query) = true ->
  printable (strip query) = true ->
  generate_kml generate_content (Py.VDict items) w =
  match KMLAgent.generate_kml generate_content (strip query) w with
  | (Py.Returns kml, w') =>
      (Py.Returns (Response (Py.VDict [(lit "kml", Py.VStr kml)]) 200), w')
  | (Py.Raises e, w') =>
      (Py.Returns (error_response (Py.exn_str e) 500), w')
  end.
Proof.
  intros Hquery Hnonblank Hprintable.
  unfold generate_kml, Py.try_except, Py.bind, Py.get, agent_generate_kml.
  rewrite (lookup_some_truth _ _ Hquery), Hquery. cbn [negb].
  unfold Py.strip_method, Py.ret. cbv beta iota. rewrite Hnonblank. cbn [negb].
  rewrite print_printable by now rewrite printable_generating_line.
  destruct (KMLAgent.generate_kml generate_content (strip query) w)
    as [[kml|e] w']; reflexivity.
Qed.

End HandlerFacts.



(** C5.  A query that is empty once coerced to text and trimmed is skipped:
    the loop body leaves both lists as they were and does not call the
    service, so that the whole loop behaves as if the query were not in the
    input. *)
Theorem blank_query_is_skipped
  (W : Type) (generate_content : str -> W -> KMLAgent.reply * W)
  (py_repr : Py.value -> str)
  (before after : list Py.value) (query : Py.value)
  (lists : list Py.value * list Py.value) (w : W) :
  truthy (query_text py_repr query) = false ->
  FlaskServer.batch_item generate_content py_repr query lists w
  = (Py.Returns lists, w)
  /\ FlaskServer.batch_loop generate_content py_repr
       (before ++ query :: after) lists w
     = FlaskServer.batch_loop generate_content py_repr
         (before ++ after) lists w.
Proof.
  intros Hblank. split; [now apply batch_item_blank|].
  destruct lists as [results failed]. rewrite !batch_loop_outcomes.
  assert (Hsame : nonblank py_repr (before ++ query :: after)
                  = nonblank py_repr (before ++ after)).
  { unfold nonblank. rewrite !map_app, !filter_app. cbn [List.map filter].
    now rewrite Hblank. }
  now rewrite Hsame.
Qed.

Lemma blank_query_is_skipped_witness :
  FlaskServer.batch_item Fixtures.scripted Fixtures.sample_repr
    (Py.VStr (lit "   ")) ([], []) [KMLAgent.Text Fixtures.sample_kml]
  = (Py.Returns ([], []), [KMLAgent.Text Fixtures.sample_kml])
  /\ FlaskServer.batch_loop Fixtures.scripted Fixtures.sample_repr
       ([Py.VStr (lit "A")] ++ Py.VStr (lit "   ") :: [Py.VStr (lit "B")])
       ([], []) [KMLAgent.Text Fixtures.sample_kml]
     = FlaskServer.batch_loop Fixtures.scripted Fixtures.sample_repr
         ([Py.VStr (lit "A")] ++ [Py.VStr (lit "B")])
         ([], []) [KMLAgent.Text Fixtures.sample_kml].
Proof.
  apply blank_query_is_skipped. reflexivity.
Defined.

(** C7 at bodies that are valid JSON but not objects.  The number 5 has no
    [queries] field, yet the membership test raises inside the handler; the
    string and the one-item list pass the membership test and the handler
    then fails on [data.get].  In each case the answer is a 500, not a 400;
    the service is not called. *)
Theorem generate_kml_batch_non_object_body
  (W : Type) (generate_content : str -> W -> KMLAgent.reply * W)
  (py_repr : Py.value -> str) (w : W) :
  forall data,
    In data [Py.VInt 5; Py.VStr (lit "queries");
             Py.VList [Py.VStr (lit "queries")]] ->
    exists msg,
      FlaskServer.generate_kml_batch generate_content py_repr data w
      = (Py.Returns (FlaskServer.error_response msg 500), w).
Proof.
  intros data [<- | [<- | [<- | []]]]; eexists; reflexivity.
Qed.

Lemma generate_kml_batch_non_object_body_witness :
  exists msg,
    FlaskServer.generate_kml_batch Fixtures.scripted Fixtures.sample_repr
      (Py.VInt 5) [KMLAgent.Text Fixtures.sample_kml]
    = (Py.Returns (FlaskServer.error_response msg 500),
       [KMLAgent.Text Fixtures.sample_kml]).
Proof.
  apply generate_kml_batch_non_object_body. left; reflexivity.
Defined.

(** C10.  The validation handler trims the submitted string first: [valid]
    is the verdict of the validator on the trimmed string and [length] is the
    length of the trimmed string. *)
Theorem validate_kml_trims_first
  (W : Type) (data : Py.value) (s : str) (w : W) :
  has_field data (lit "kml") (Py.VStr s) ->
  FlaskServer.validate_kml data w
  = (Py.Returns
       (FlaskServer.Response
          (Py.VDict
             [(lit "valid", Py.VBool (KMLAgent._is_valid_kml (strip s)));
              (lit "length", Py.VInt (Z.of_nat (length (strip s))))]) 200),
     w).
Proof.
  intros [items [-> Hkml]]. now apply validate_kml_string.
Qed.

Lemma validate_kml_trims_first_witness :
  FlaskServer.validate_kml
    (Py.VDict [(lit "kml", Py.VStr (lit "  <kml> " ++ nl))]) tt
  = (Py.Returns
       (FlaskServer.Response
          (Py.VDict [(lit "valid", Py.VBool false);
                     (lit "length", Py.VInt 5)]) 200),
     tt).
Proof.
  refine (@validate_kml_trims_first unit _ (lit "  <kml> " ++ nl) tt _).
  eexists; split; reflexivity.
Defined.

(** ** Markdown fences *)

Section FenceFacts.

Import KMLAgent.

(** The clean-up on a trimmed reply of the shape opening, inner text,
    closing. *)
Lemma strip_fences_shape (text opening inner closing : str) :
  strip text = opening ++ inner ++ closing ->
  In opening [[]; fence; fence_xml] ->
  In closing [[]; fence] ->
  startswith fence (inner ++ closing) = false ->
  (opening = fence -> startswith (lit "xml") (inner ++ closing) = false) ->
  (closing = [] -> endswith fence inner = false) ->
  strip_fences text = strip inner.
Proof.
  intros Hshape Hopening Hclosing Hno_fence Hno_tag Hno_close.
  unfold strip_fences. rewrite Hshape. cbv zeta.
  assert (Hlead :
    (let kml := opening ++ inner ++ closing in
     let kml := if startswith (lit "```xml") kml then skipn 6 kml else kml in
     if startswith (lit "```") kml then skipn 3 kml else kml)
    = inner ++ closing).
  { cbv zeta.
    destruct Hopening as [<- | [<- | [<- | []]]].
    - cbn [app].
      destruct (startswith (lit "```xml") (inner ++ closing)) eqn:Htag.
      + apply (startswith_app_l fence (lit "xml")) in Htag. congruence.
      + change (lit "```") with fence. now rewrite Hno_fence.
    - change (startswith (lit "```xml") (fence ++ inner ++ closing))
        with (startswith (lit "xml") (inner ++ closing)).
      rewrite (Hno_tag eq_refl). reflexivity.
    - change (startswith (lit "```xml") (fence_xml ++ inner ++ closing))
        with true. cbv iota.
      change (skipn 6 (fence_xml ++ inner ++ closing)) with (inner ++ closing).
      change (lit "```") with fence. now rewrite Hno_fence. }
  cbv zeta in Hlead. rewrite Hlead.
  destruct Hclosing as [<- | [<- | []]].
  - rewrite app_nil_r. change (lit "```") with fence.
    now rewrite (Hno_close eq_refl).
  - change (lit "```") with fence. rewrite endswith_app.
    change 3%nat with (length fence). now rewrite firstn_drop_suffix.
Qed.

End FenceFacts.

(** X18.  The markers the clean-up knows.  When the trimmed reply is an
    opening marker (three backticks, bare or followed by xml, or none), an
    inner text and a closing marker (three backticks, or none), with at least
    one of the two markers present, [generate_kml] hands exactly the trimmed
    inner text to the validator and returns it unchanged when it is valid,
    and raises the validation failure when it is not.  The side conditions:
    what follows the opening does not begin with three backticks; after a
    bare opening it does not begin with xml; and without a closing marker the
    inner text does not end with three backticks. *)
Theorem generate_kml_unwraps_xml_fence
  (W : Type) (generate_content : str -> W -> KMLAgent.reply * W)
  (prompt text opening inner closing : str) (w w' : W) :
  truthy (strip prompt) = true ->
  generate_content
    (KMLAgent.request_text KMLAgent._build_system_prompt prompt) w
  = (KMLAgent.Text text, w') ->
  strip text = opening ++ inner ++ closing ->
  In opening [[]; fence; fence_xml] ->
  In closing [[]; fence] ->
  opening <> [] \/ closing <> [] ->
  startswith fence (inner ++ closing) = false ->
  (opening = fence -> startswith (lit "xml") (inner ++ closing) = false) ->
  (closing = [] -> endswith fence inner = false) ->
  KMLAgent.strip_fences text = strip inner
  /\ KMLAgent.generate_kml generate_content prompt w
     = if KMLAgent._is_valid_kml (strip inner)
       then (Py.Returns (strip inner), w')
       else (Py.Raises
               (Py.Exception
                  (lit "KML generation failed: Generated KML failed validation")),
             w').
Proof.
  intros Hprompt Hreply Hshape Hopening Hclosing Hmarker Hno_fence Hno_tag
    Hno_close.
  assert (Hclean : KMLAgent.strip_fences text = strip inner)
    by (eapply strip_fences_shape; eassumption).
  split; [exact Hclean|].
  rewrite (generate_kml_run generate_content _ w Hprompt), Hreply, Hclean.
  assert (Htext : truthy text = true).
  { destruct text as [|c text]; [|reflexivity].
    rewrite strip_nil in Hshape.
    destruct opening; [|discriminate Hshape].
    destruct inner; [|discriminate Hshape].
    destruct closing; [|discriminate Hshape].
    destruct Hmarker as [H | H]; now elim H. }
  rewrite Htext.
  destruct (KMLAgent._is_valid_kml (strip inner)); reflexivity.
Qed.

Lemma generate_kml_unwraps_xml_fence_witness :
  KMLAgent.strip_fences
    (lit "  ```xml" ++ nl ++ Fixtures.sample_kml ++ nl ++ lit "```" ++ nl)
  = strip (nl ++ Fixtures.sample_kml ++ nl)
  /\ KMLAgent.generate_kml Fixtures.scripted (lit "Fly to Eiffel Tower")
       [KMLAgent.Text
          (lit "  ```xml" ++ nl ++ Fixtures.sample_kml ++ nl ++ lit "```" ++ nl)]
     = if KMLAgent._is_valid_kml (strip (nl ++ Fixtures.sample_kml ++ nl))
       then (Py.Returns (strip (nl ++ Fixtures.sample_kml ++ nl)), [])
       else (Py.Raises
               (Py.Exception
                  (lit "KML generation failed: Generated KML failed validation")),
             []).
Proof.
  apply (@generate_kml_unwraps_xml_fence _ Fixtures.scripted
           (lit "Fly to Eiffel Tower")
           (lit "  ```xml" ++ nl ++ Fixtures.sample_kml ++ nl ++ lit "```" ++ nl)
           fence_xml (nl ++ Fixtures.sample_kml ++ nl) fence
           [KMLAgent.Text
              (lit "  ```xml" ++ nl ++ Fixtures.sample_kml ++ nl ++ lit "```"
               ++ nl)] []).
  - reflexivity.
  - reflexivity.
  - reflexivity.
  - right; right; left; reflexivity.
  - right; left; reflexivity.
  - left; discriminate.
  - reflexivity.
  - discriminate.
  - discriminate.
Defined.

(** C4 at replies fenced with a language tag other than xml.  A markdown
    block tagged kml around a valid document loses its three backticks only:
    the tag stays in front of the document, the validator still accepts the
    text, and that is what [generate_kml] returns in place of the inner
    content.  A block tagged xmlx loses the six code points of the xml
    marker and keeps the x. *)
Lemma generate_kml_keeps_other_language_tag :
  Fixtures.sample_kml_block
  = fence ++ lit "kml" ++ nl ++ Fixtures.sample_kml ++ nl ++ fence
  /\ KMLAgent.generate_kml Fixtures.scripted (lit "Fly to Eiffel Tower")
       [KMLAgent.Text Fixtures.sample_kml_block]
     = (Py.Returns (lit "kml" ++ nl ++ Fixtures.sample_kml), [])
  /\ lit "kml" ++ nl ++ Fixtures.sample_kml
     <> strip (nl ++ Fixtures.sample_kml ++ nl)
  /\ KMLAgent.generate_kml Fixtures.scripted (lit "Fly to Eiffel Tower")
       [KMLAgent.Text
          (fence ++ lit "xmlx" ++ nl ++ Fixtures.sample_kml ++ nl ++ fence)]
     = (Py.Returns (lit "x" ++ nl ++ Fixtures.sample_kml), []).
Proof.
  split; [reflexivity|]. split; [vm_compute; reflexivity|].
  split; [vm_compute; discriminate|].
  vm_compute; reflexivity.
Qed.




(** ** Trimming and substrings *)

Section TrimFacts.

Lemma lstrip_split (s : str) :
  exists ws, s = ws ++ lstrip s /\ forallb isspace ws = true.
Proof.
  induction s as [|c s [ws [Hs Hws]]]; [exists []; split; reflexivity|].
  simpl. destruct (isspace c) eqn:Hc.
  - exists (c :: ws). split; [simpl; now rewrite <- Hs | simpl; now rewrite Hc].
  - exists []. split; reflexivity.
Qed.

Lemma rstrip_split (s : str) :
  exists ws, s = rstrip s ++ ws /\ forallb isspace ws = true.
Proof.
  unfold rstrip. destruct (lstrip_split (rev s)) as [ws [Hs Hws]].
  exists (rev ws). split.
  - rewrite <- rev_app_distr, <- Hs. now rewrite rev_involutive.
  - rewrite forallb_forall in *. intros c Hc. apply Hws. now apply in_rev.
Qed.

(** The trimmed string sits inside the string, between two runs of white
    space. *)
Lemma strip_split (s : str) :
  exists ws1 ws2,
    s = ws1 ++ strip s ++ ws2
    /\ forallb isspace ws1 = true /\ forallb isspace ws2 = true.
Proof.
  destruct (lstrip_split s) as [ws1 [H1 Hws1]].
  destruct (rstrip_split (lstrip s)) as [ws2 [H2 Hws2]].
  exists ws1, ws2. unfold strip. split; [|split; assumption].
  now rewrite <- H2.
Qed.

Lemma strip_occurs (s : str) : occurs_in (strip s) s.
Proof. destruct (strip_split s) as [ws1 [ws2 [H _]]]. now exists ws1, ws2. Qed.

Lemma occurs_in_length (p s : str) : occurs_in p s -> length p <= length s.
Proof. intros [before [after ->]]. rewrite !length_app. lia. Qed.

Lemma skipn_occurs (n : nat) (s : str) : occurs_in (skipn n s) s.
Proof.
  exists (firstn n s), []. now rewrite app_nil_r, firstn_skipn.
Qed.

Lemma firstn_occurs (n : nat) (s : str) : occurs_in (firstn n s) s.
Proof. exists [], (skipn n s). simpl. now rewrite firstn_skipn. Qed.

Lemma occurs_in_refl (s : str) : occurs_in s s.
Proof. exists [], []. simpl. now rewrite app_nil_r. Qed.

Lemma occurs_in_lstrip (p s : str) (c : char) (p' : str) :
  p = c :: p' -> isspace c = false -> occurs_in p s -> occurs_in p (lstrip s).
Proof.
  intros -> Hc [before [after ->]].
  induction before as [|b before IH]; simpl.
  - rewrite Hc. exists [], after. reflexivity.
  - destruct (isspace b); [exact IH|].
    exists (b :: before), after. reflexivity.
Qed.

Lemma occurs_in_rev (p s : str) : occurs_in p s -> occurs_in (rev p) (rev s).
Proof.
  intros [before [after ->]]. exists (rev after), (rev before).
  now rewrite !rev_app_distr, <- app_assoc.
Qed.

(** A solid token that occurs in a string occurs in the trimmed string. *)
Lemma occurs_in_strip (p s : str) :
  solid p = true -> occurs_in p s -> occurs_in p (strip s).
Proof.
  unfold solid. rewrite andb_true_iff. intros [Hhead Hlast] Hocc.
  destruct p as [|c p'] eqn:Hp; [discriminate|]. rewrite <- Hp in *.
  destruct (rev p) as [|d q] eqn:Hrev; [discriminate|].
  apply negb_true_iff in Hhead, Hlast.
  unfold strip, rstrip.
  rewrite <- (rev_involutive p). apply occurs_in_rev.
  rewrite Hrev. apply (occurs_in_lstrip (c := d) (p' := q)); [reflexivity | exact Hlast|].
  rewrite <- Hrev. apply occurs_in_rev.
  now apply (occurs_in_lstrip (c := c) (p' := p')).
Qed.

End TrimFacts.

(** ** The validator and white space *)

Section ValidatorTrim.

Import KMLAgent.

Lemma tokens_solid :
  forallb solid (required_elements ++ content_elements) = true.
Proof. reflexivity. Qed.

Lemma is_valid_kml_lists (s : str) :
  _is_valid_kml s = true
  <-> Forall (fun p => occurs_in p s) required_elements
      /\ Exists (fun p => occurs_in p s) content_elements.
Proof.
  now rewrite is_valid_kml_spec, all_required_Forall, some_content_Exists.
Qed.

(** Validity moves along any map of strings that keeps the occurrences of
    the tokens. *)
Lemma is_valid_kml_transfer (s t : str) :
  (forall p, In p (required_elements ++ content_elements) ->
             occurs_in p s -> occurs_in p t) ->
  _is_valid_kml s = true -> _is_valid_kml t = true.
Proof.
  intros Hkeep. rewrite !is_valid_kml_lists.
  rewrite !Forall_forall, !Exists_exists. intros [Hreq [p [Hin Hp]]]. split.
  - intros q Hq. apply Hkeep; [apply in_or_app; now left | now apply Hreq].
  - exists p. split; [exact Hin|].
    apply Hkeep; [apply in_or_app; now right | exact Hp].
Qed.

Lemma is_valid_kml_strip (s : str) :
  _is_valid_kml (strip s) = _is_valid_kml s.
Proof.
  assert (Hdown : _is_valid_kml s = true -> _is_valid_kml (strip s) = true).
  { apply is_valid_kml_transfer. intros p Hin.
    apply occurs_in_strip.
    pose proof tokens_solid as Hsolid. rewrite forallb_forall in Hsolid.
    now apply Hsolid. }
  assert (Hup : _is_valid_kml (strip s) = true -> _is_valid_kml s = true).
  { apply is_valid_kml_transfer. intros p _ Hp.
    exact (occurs_in_trans Hp (strip_occurs s)). }
  destruct (_is_valid_kml s), (_is_valid_kml (strip s)); auto.
  symmetry. now apply Hup.
Qed.

End ValidatorTrim.

(** X1.  White space around a document does not count: the validator gives
    the same verdict on a string and on the string trimmed; and a string that
    is empty or all white space is rejected. *)
Theorem is_valid_kml_ignores_outer_whitespace (s : str) :
  KMLAgent._is_valid_kml (strip s) = KMLAgent._is_valid_kml s
  /\ (strip s = [] -> KMLAgent._is_valid_kml s = false).
Proof.
  split; [apply is_valid_kml_strip|].
  intros Hblank. rewrite <- is_valid_kml_strip, Hblank. reflexivity.
Qed.

Lemma is_valid_kml_ignores_outer_whitespace_witness :
  KMLAgent._is_valid_kml (nl ++ lit "   " ++ nl) = false.
Proof.
  apply (proj2 (is_valid_kml_ignores_outer_whitespace (nl ++ lit "   " ++ nl))).
  reflexivity.
Defined.

(** ** More on the generation pipeline *)

Section AgentMore.

Import KMLAgent.

Lemma strip_fences_occurs (text : str) : occurs_in (strip_fences text) text.
Proof.
  unfold strip_fences. cbv zeta.
  eapply occurs_in_trans; [apply strip_occurs|].
  eapply occurs_in_trans; [|apply strip_occurs].
  set (kml0 := strip text).
  set (kml1 := if startswith (lit "```xml") kml0 then skipn 6 kml0 else kml0).
  set (kml2 := if startswith (lit "```") kml1 then skipn 3 kml1 else kml1).
  assert (H1 : occurs_in kml1 kml0)
    by (subst kml1; destruct (startswith _ kml0);
        [apply skipn_occurs | apply occurs_in_refl]).
  assert (H2 : occurs_in kml2 kml1)
    by (subst kml2; destruct (startswith _ kml1);
        [apply skipn_occurs | apply occurs_in_refl]).
  eapply occurs_in_trans; [|exact H1].
  eapply occurs_in_trans; [|exact H2].
  destruct (endswith _ kml2); [apply firstn_occurs | apply occurs_in_refl].
Qed.

Lemma strip_fences_trimmed (text : str) : trimmed (strip_fences text).
Proof. unfold trimmed, strip_fences. cbv zeta. apply strip_idem. Qed.

Lemma valid_truthy (kml : str) : _is_valid_kml kml = true -> truthy kml = true.
Proof. destruct kml; [discriminate | reflexivity]. Qed.

(** A reply that carries no marker is only trimmed. *)
Lemma strip_fences_plain (text : str) :
  startswith fence (strip text) = false ->
  endswith fence (strip text) = false ->
  strip_fences text = strip text.
Proof.
  intros Hstart Hend. unfold strip_fences. cbv zeta.
  destruct (startswith (lit "```xml") (strip text)) eqn:Htag.
  - apply (startswith_app_l fence (lit "xml")) in Htag. congruence.
  - change (lit "```") with fence. rewrite Hstart, Hend. apply strip_idem.
Qed.

End AgentMore.

(** X2.  The exceptions of [generate_kml] are of two kinds only.  A blank
    prompt raises the ValueError of the input check, as it is, before the
    service is called.  For any other prompt, whatever goes wrong, and
    whatever the class of the exception, what comes out is a plain Exception
    whose message begins with the failure prefix. *)
Theorem generate_kml_raises_two_kinds
  (W : Type) (generate_content : str -> W -> KMLAgent.reply * W)
  (prompt : str) (w w' : W) (e : Py.exn) :
  KMLAgent.generate_kml generate_content prompt w = (Py.Raises e, w') ->
  (truthy (strip prompt) = false
   /\ e = Py.ValueError (lit "Prompt cannot be empty") /\ w' = w)
  \/ (truthy (strip prompt) = true
      /\ exists cause, e = Py.Exception (failure_prefix ++ cause)).
Proof.
  destruct (truthy (strip prompt)) eqn:Hprompt.
  - rewrite (generate_kml_run generate_content _ w Hprompt). intros Hrun.
    right. split; [reflexivity|].
    destruct (generate_content _ w) as [[text|e0] w0].
    + destruct (truthy text).
      * destruct (KMLAgent._is_valid_kml (KMLAgent.strip_fences text));
          [discriminate|]. injection Hrun as <- _. eexists; reflexivity.
      * injection Hrun as <- _. eexists; reflexivity.
    + injection Hrun as <- _. eexists; reflexivity.
  - rewrite (generate_kml_blank generate_content _ w Hprompt).
    intros [= <- <-]. left. auto.
Qed.

Lemma generate_kml_raises_two_kinds_witness :
  (truthy (strip (lit "Fly to Eiffel Tower")) = false
   /\ Py.Exception (lit "KML generation failed: service unavailable")
      = Py.ValueError (lit "Prompt cannot be empty")
   /\ @nil KMLAgent.reply = [])
  \/ (truthy (strip (lit "Fly to Eiffel Tower")) = true
      /\ exists cause,
          Py.Exception (lit "KML generation failed: service unavailable")
          = Py.Exception (failure_prefix ++ cause)).
Proof.
  apply (@generate_kml_raises_two_kinds _ Fixtures.scripted
           (lit "Fly to Eiffel Tower") [] []).
  reflexivity.
Defined.

(** X3.  What [generate_kml] returns is always a contiguous part of the
    reply of the service, cut out by the clean-up: nothing is added or
    rewritten.  It is trimmed, not empty, and no longer than the reply. *)
Theorem generate_kml_returns_part_of_reply
  (W : Type) (generate_content : str -> W -> KMLAgent.reply * W)
  (prompt kml : str) (w w' : W) :
  KMLAgent.generate_kml generate_content prompt w = (Py.Returns kml, w') ->
  exists text,
    generate_content
      (KMLAgent.request_text KMLAgent._build_system_prompt prompt) w
    = (KMLAgent.Text text, w')
    /\ kml = KMLAgent.strip_fences text
    /\ occurs_in kml text /\ trimmed kml /\ truthy kml = true
    /\ length kml <= length text.
Proof.
  destruct (truthy (strip prompt)) eqn:Hprompt.
  - rewrite (generate_kml_run generate_content _ w Hprompt).
    destruct (generate_content _ w) as [[text|e0] w0]; [|discriminate].
    destruct (truthy text); [|discriminate].
    destruct (KMLAgent._is_valid_kml (KMLAgent.strip_fences text)) eqn:Hvalid;
      [|discriminate].
    intros [= <- <-]. exists text.
    repeat split.
    + apply strip_fences_occurs.
    + apply strip_fences_trimmed.
    + now apply valid_truthy.
    + apply occurs_in_length, strip_fences_occurs.
  - rewrite (generate_kml_blank generate_content _ w Hprompt). discriminate.
Qed.

Lemma generate_kml_returns_part_of_reply_witness :
  exists text,
    Fixtures.scripted
      (KMLAgent.request_text KMLAgent._build_system_prompt
         (lit "Fly to Eiffel Tower"))
      [KMLAgent.Text (lit " ```" ++ nl ++ Fixtures.sample_kml ++ lit "``` ")]
    = (KMLAgent.Text text, [])
    /\ Fixtures.sample_kml = KMLAgent.strip_fences text
    /\ occurs_in Fixtures.sample_kml text /\ trimmed Fixtures.sample_kml
    /\ truthy Fixtures.sample_kml = true
    /\ length Fixtures.sample_kml <= length text.
Proof.
  apply (@generate_kml_returns_part_of_reply _ Fixtures.scripted
           (lit "Fly to Eiffel Tower")).
  reflexivity.
Defined.

(** X4.  A reply that is not empty but all white space is not taken for a
    missing reply: it goes through the clean-up, comes out empty and fails
    the validator. *)
Theorem generate_kml_whitespace_reply
  (W : Type) (generate_content : str -> W -> KMLAgent.reply * W)
  (prompt text : str) (w w' : W) :
  truthy (strip prompt) = true ->
  generate_content
    (KMLAgent.request_text KMLAgent._build_system_prompt prompt) w
  = (KMLAgent.Text text, w') ->
  truthy text = true -> strip text = [] ->
  KMLAgent.generate_kml generate_content prompt w
  = (Py.Raises
       (Py.Exception
          (lit "KML generation failed: Generated KML failed validation")), w').
Proof.
  intros Hprompt Hreply Htext Hblank.
  rewrite (generate_kml_run generate_content _ w Hprompt), Hreply, Htext.
  assert (Hclean : KMLAgent.strip_fences text = [])
    by (unfold KMLAgent.strip_fences; rewrite Hblank; reflexivity).
  rewrite Hclean. reflexivity.
Qed.

Lemma generate_kml_whitespace_reply_witness :
  KMLAgent.generate_kml Fixtures.scripted (lit "Fly to Eiffel Tower")
    [KMLAgent.Text (lit "  " ++ nl)]
  = (Py.Raises
       (Py.Exception
          (lit "KML generation failed: Generated KML failed validation")), []).
Proof.
  apply (@generate_kml_whitespace_reply _ Fixtures.scripted
           (lit "Fly to Eiffel Tower") (lit "  " ++ nl) [_] []);
    reflexivity.
Defined.

(** X5.  A reply without markers is accepted exactly when the reply as it
    came passes the validator, and what is returned is the reply trimmed. *)
Theorem generate_kml_plain_reply
  (W : Type) (generate_content : str -> W -> KMLAgent.reply * W)
  (prompt text : str) (w w' : W) :
  truthy (strip prompt) = true ->
  generate_content
    (KMLAgent.request_text KMLAgent._build_system_prompt prompt) w
  = (KMLAgent.Text text, w') ->
  truthy text = true ->
  startswith fence (strip text) = false ->
  endswith fence (strip text) = false ->
  KMLAgent.generate_kml generate_content prompt w
  = if KMLAgent._is_valid_kml text
    then (Py.Returns (strip text), w')
    else (Py.Raises
            (Py.Exception
               (lit "KML generation failed: Generated KML failed validation")),
          w').
Proof.
  intros Hprompt Hreply Htext Hstart Hend.
  rewrite (generate_kml_run generate_content _ w Hprompt), Hreply, Htext.
  rewrite (strip_fences_plain _ Hstart Hend), is_valid_kml_strip.
  destruct (KMLAgent._is_valid_kml text); reflexivity.
Qed.

Lemma generate_kml_plain_reply_witness :
  KMLAgent.generate_kml Fixtures.scripted (lit "Fly to Eiffel Tower")
    [KMLAgent.Text (nl ++ Fixtures.sample_kml ++ nl)]
  = if KMLAgent._is_valid_kml (nl ++ Fixtures.sample_kml ++ nl)
    then (Py.Returns (strip (nl ++ Fixtures.sample_kml ++ nl)), [])
    else (Py.Raises
            (Py.Exception
               (lit "KML generation failed: Generated KML failed validation")),
          []).
Proof.
  apply (@generate_kml_plain_reply _ Fixtures.scripted
           (lit "Fly to Eiffel Tower") (nl ++ Fixtures.sample_kml ++ nl)
           [_] []); reflexivity.
Defined.

(** ** More on the handlers *)

Section HandlerMore.

Import FlaskServer.

Variable W : Type.
Variable generate_content : str -> W -> KMLAgent.reply * W.
Variable py_repr : Py.value -> str.

(** The single-query handler, by the shape of the body. *)
Lemma generate_kml_by_shape (data : Py.value) (w : W) :
  generate_kml generate_content data w =
  if negb (Py.truth data) then
    (Py.Returns (error_response (lit "Request body must be JSON") 400), w)
  else
    match data with
    | Py.VDict items =>
        match Py.lookup (lit "query") items with
        | None =>
            (Py.Returns
               (error_response (lit "Query parameter is required") 400), w)
        | Some (Py.VStr query) =>
            if truthy (strip query) then
              match Py.utf8_encode_error (generating_line (strip query)) with
              | Some e => (Py.Returns (error_response (Py.exn_str e) 500), w)
              | None =>
                  match
                    KMLAgent.generate_kml generate_content (strip query) w
                  with
                  | (Py.Returns kml, w') =>
                      (Py.Returns
                         (Response (Py.VDict [(lit "kml", Py.VStr kml)]) 200),
                       w')
                  | (Py.Raises e, w') =>
                      (Py.Returns (error_response (Py.exn_str e) 500), w')
                  end
              end
            else
              (Py.Returns
                 (error_response (lit "Query parameter is required") 400), w)
        | Some v =>
            (Py.Returns
               (error_response
                  (Py.exn_str (Py.no_attribute v (lit "strip"))) 500), w)
        end
    | _ =>
        (Py.Returns
           (error_response
              (Py.exn_str (Py.no_attribute data (lit "get"))) 500), w)
    end.
Proof.
  unfold generate_kml, Py.try_except, Py.bind.
  destruct (Py.truth data) eqn:Htruth; cbn [negb]; [|reflexivity].
  destruct data as [|b|z|f|s|l|items]; try reflexivity.
  unfold Py.get. destruct (Py.lookup (lit "query") items) as [v|];
    [|reflexivity].
  destruct v as [|b|z|f|query|l|d]; try reflexivity.
  unfold Py.strip_method, Py.ret. cbv beta iota.
  destruct (truthy (strip query)); cbn [negb]; [|reflexivity].
  unfold agent_generate_kml, Py.print.
  destruct (Py.utf8_encode_error (generating_line (strip query)));
    [reflexivity|].
  unfold Py.ret.
  destruct (KMLAgent.generate_kml generate_content (strip query) w)
    as [[kml|e] w']; reflexivity.
Qed.

(** The validation handler on a JSON object, by its [kml] field. *)
Lemma validate_kml_dict (items : list (str * Py.value)) (w : W) :
  validate_kml (Py.VDict items) w =
  match Py.lookup (lit "kml") items with
  | None =>
      (Py.Returns (error_response (lit "kml parameter is required") 400), w)
  | Some (Py.VStr s) =>
      (Py.Returns
         (Response
            (Py.VDict
               [(lit "valid", Py.VBool (KMLAgent._is_valid_kml (strip s)));
                (lit "length", Py.VInt (Z.of_nat (length (strip s))))]) 200),
       w)
  | Some v =>
      (Py.Returns
         (error_response (Py.exn_str (Py.no_attribute v (lit "strip"))) 500),
       w)
  end.
Proof.
  unfold validate_kml, Py.try_except, Py.bind, Py.contains_key, Py.get.
  destruct items as [|item items]; [reflexivity|].
  cbn [Py.truth negb].
  destruct (Py.lookup (lit "kml") (item :: items)) as [v|]; [|reflexivity].
  destruct v; reflexivity.
Qed.

Lemma nonblank_app (a b : list Py.value) :
  nonblank py_repr (a ++ b) = nonblank py_repr a ++ nonblank py_repr b.
Proof. unfold nonblank. now rewrite map_app, filter_app. Qed.

Lemma nonblank_all_blank (queries : list Py.value) :
  Forall (fun query => truthy (query_text py_repr query) = false) queries ->
  nonblank py_repr queries = [].
Proof.
  induction 1 as [|query rest Hblank _ IH]; [reflexivity|].
  unfold nonblank in *. cbn [List.map filter]. now rewrite Hblank.
Qed.



Lemma outcomes_app (a b : list str) (w : W) :
  outcomes generate_content (a ++ b) w =
  (fst (outcomes generate_content a w)
   ++ fst (outcomes generate_content b (snd (outcomes generate_content a w))),
   snd (outcomes generate_content b (snd (outcomes generate_content a w)))).
Proof.
  revert w. induction a as [|prompt a IH]; intros w.
  - cbn [app outcomes fst snd].
    now destruct (outcomes generate_content b w).
  - cbn [app outcomes].
    destruct (attempt generate_content prompt w) as [o w1].
    rewrite IH. destruct (outcomes generate_content a w1) as [os w2].
    reflexivity.
Qed.


Lemma successes_app (a b : list (str * Py.outcome str)) :
  successes (a ++ b) = successes a ++ successes b.
Proof. unfold successes. apply flat_map_app. Qed.

Lemma failures_app (a b : list (str * Py.outcome str)) :
  failures (a ++ b) = failures a ++ failures b.
Proof. unfold failures. apply flat_map_app. Qed.

End HandlerMore.


(** X7.  The single-query handler refuses with a 400, without calling the
    service: a body whose truth value is false; a JSON object that has no
    [query]; a JSON object whose [query] is a blank string. *)
Theorem generate_kml_handler_client_errors
  (W : Type) (generate_content : str -> W -> KMLAgent.reply * W)
  (data : Py.value) (w : W) :
  (Py.truth data = false ->
   FlaskServer.generate_kml generate_content data w
   = (Py.Returns
        (FlaskServer.error_response (lit "Request body must be JSON") 400), w))
  /\ (Py.truth data = true -> lacks_field data (lit "query") ->
      FlaskServer.generate_kml generate_content data w
      = (Py.Returns
           (FlaskServer.error_response (lit "Query parameter is required") 400),
         w))
  /\ (forall query,
        has_field data (lit "query") (Py.VStr query) ->
        truthy (strip query) = false ->
        FlaskServer.generate_kml generate_content data w
        = (Py.Returns
             (FlaskServer.error_response (lit "Query parameter is required")
                400), w)).
Proof.
  rewrite generate_kml_by_shape. repeat split.
  - intros ->. reflexivity.
  - intros -> [items [-> Hnone]]. cbn [negb]. now rewrite Hnone.
  - intros query [items [-> Hquery]] Hblank.
    rewrite (lookup_some_truth _ _ Hquery). cbn [negb].
    now rewrite Hquery, Hblank.
Qed.

Lemma generate_kml_handler_client_errors_witness :
  FlaskServer.generate_kml Fixtures.scripted
    (Py.VDict [(lit "query", Py.VStr (lit "  " ++ nl))])
    [KMLAgent.Text Fixtures.sample_kml]
  = (Py.Returns
       (FlaskServer.error_response (lit "Query parameter is required") 400),
     [KMLAgent.Text Fixtures.sample_kml]).
Proof.
  refine (proj2 (proj2 (@generate_kml_handler_client_errors _ Fixtures.scripted
                          _ _)) (lit "  " ++ nl) _ _).
  - eexists; split; reflexivity.
  - reflexivity.
Defined.

(** X8.  The single-query handler does not check types: a body that is
    true in a test but is not a JSON object, and a [query] that is not a
    string, make an attribute lookup fail inside the handler, which answers
    500 without calling the service. *)
Theorem generate_kml_handler_type_errors
  (W : Type) (generate_content : str -> W -> KMLAgent.reply * W)
  (data : Py.value) (w : W) :
  (Py.truth data = true -> (forall items, data <> Py.VDict items) ->
   FlaskServer.generate_kml generate_content data w
   = (Py.Returns
        (FlaskServer.error_response
           (Py.exn_str (Py.no_attribute data (lit "get"))) 500), w))
  /\ (forall v,
        has_field data (lit "query") v -> (forall s, v <> Py.VStr s) ->
        FlaskServer.generate_kml generate_content data w
        = (Py.Returns
             (FlaskServer.error_response
                (Py.exn_str (Py.no_attribute v (lit "strip"))) 500), w)).
Proof.
  rewrite generate_kml_by_shape. split.
  - intros -> Hshape. cbn [negb].
    destruct data as [|b|z|f|s|l|items]; try reflexivity.
    now elim (Hshape items).
  - intros v [items [-> Hquery]] Hshape.
    rewrite (lookup_some_truth _ _ Hquery), Hquery. cbn [negb].
    destruct v as [|b|z|f|s|l|d]; try reflexivity.
    now elim (Hshape s).
Qed.

Lemma generate_kml_handler_type_errors_witness :
  FlaskServer.generate_kml Fixtures.scripted
    (Py.VDict [(lit "query", Py.VInt 42)])
    [KMLAgent.Text Fixtures.sample_kml]
  = (Py.Returns
       (FlaskServer.error_response
          (Py.exn_str (Py.no_attribute (Py.VInt 42) (lit "strip"))) 500),
     [KMLAgent.Text Fixtures.sample_kml]).
Proof.
  refine (proj2 (@generate_kml_handler_type_errors _ Fixtures.scripted _ _)
            (Py.VInt 42) _ _).
  - eexists; split; reflexivity.
  - discriminate.
Defined.



(** X10.  A batch whose queries are all blank is not a client error: the
    answer is a 200 with both lists empty, and the service is not called. *)
Theorem generate_kml_batch_all_blank
  (W : Type) (generate_content : str -> W -> KMLAgent.reply * W)
  (py_repr : Py.value -> str)
  (data : Py.value) (queries : list Py.value) (w : W) :
  has_field data (lit "queries") (Py.VList queries) ->
  queries <> [] ->
  Forall (fun query => truthy (query_text py_repr query) = false) queries ->
  FlaskServer.generate_kml_batch generate_content py_repr data w
  = (Py.Returns (FlaskServer.Response (batch_body [] []) 200), w).
Proof.
  intros [items [-> Hqueries]] Hnonempty Hblank.
  rewrite generate_kml_batch_dict, Hqueries.
  destruct queries as [|query rest]; [contradiction|].
  rewrite batch_loop_outcomes, (nonblank_all_blank py_repr Hblank).
  reflexivity.
Qed.

Lemma generate_kml_batch_all_blank_witness :
  FlaskServer.generate_kml_batch Fixtures.scripted Fixtures.sample_repr
    (Py.VDict [(lit "queries", Py.VList [Py.VStr []; Py.VStr (lit "  ")])])
    [KMLAgent.Text Fixtures.sample_kml]
  = (Py.Returns (FlaskServer.Response (batch_body [] []) 200),
     [KMLAgent.Text Fixtures.sample_kml]).
Proof.
  apply (@generate_kml_batch_all_blank _ Fixtures.scripted Fixtures.sample_repr
           _ [Py.VStr []; Py.VStr (lit "  ")]).
  - eexists; split; reflexivity.
  - discriminate.
  - repeat constructor.
Defined.

(** X11.  The batch loop only appends, and it composes: running it over
    two lists of queries in a row, the second from the service state the
    first left, gives the entries of the first followed by the entries of the
    second, after whatever the two lists held at the start.  The loop never
    raises. *)
Theorem batch_loop_app
  (W : Type) (generate_content : str -> W -> KMLAgent.reply * W)
  (py_repr : Py.value -> str)
  (first second results failed : list Py.value) (w : W) :
  exists r1 f1 w1 r2 f2 w2,
    FlaskServer.batch_loop generate_content py_repr first ([], []) w
    = (Py.Returns (r1, f1), w1)
    /\ FlaskServer.batch_loop generate_content py_repr second ([], []) w1
       = (Py.Returns (r2, f2), w2)
    /\ FlaskServer.batch_loop generate_content py_repr (first ++ second)
         (results, failed) w
       = (Py.Returns (results ++ r1 ++ r2, failed ++ f1 ++ f2), w2).
Proof.
  do 6 eexists. rewrite !batch_loop_outcomes. cbn [app].
  split; [reflexivity|]. split; [reflexivity|].
  rewrite nonblank_app, outcomes_app. cbn [fst snd].
  now rewrite successes_app, failures_app.
Qed.

(** X12.  The two generation endpoints agree on one query.  For a non-blank
    string that the console can print (no lone surrogate), from the same
    service state: when the single-query handler
    answers 200 with a document, the batch of that one query lists the
    trimmed query with the same document under [results]; when it answers
    500 with a message, the batch lists the trimmed query with the same
    message under [failed].  The batch answers 200 either way. *)
Theorem single_and_batch_agree
  (W : Type) (generate_content : str -> W -> KMLAgent.reply * W)
  (py_repr : Py.value -> str) (query : str) (w : W) :
  truthy (strip query) = true ->
  printable (strip query) = true ->
  let single :=
    FlaskServer.generate_kml generate_content
      (Py.VDict [(lit "query", Py.VStr query)]) w in
  let batch :=
    FlaskServer.generate_kml_batch generate_content py_repr
      (Py.VDict [(lit "queries", Py.VList [Py.VStr query])]) w in
  (forall kml w',
      single
      = (Py.Returns
           (FlaskServer.Response (Py.VDict [(lit "kml", Py.VStr kml)]) 200), w')
      -> batch
         = (Py.Returns
              (FlaskServer.Response
                 (batch_body [FlaskServer.result_entry (strip query) kml] [])
                 200), w'))
  /\ (forall msg w',
        single = (Py.Returns (FlaskServer.error_response msg 500), w')
        -> batch
           = (Py.Returns
                (FlaskServer.Response
                   (batch_body []
                      [FlaskServer.failed_entry (strip query) msg]) 200), w')).
Proof.
  intros Hquery Hprintable single batch. subst single batch.
  erewrite generate_kml_query by (try reflexivity; assumption).
  rewrite generate_kml_batch_dict.
  change (Py.lookup (lit "queries")
            [(lit "queries", Py.VList [Py.VStr query])])
    with (Some (Py.VList [Py.VStr query])).
  cbv iota. rewrite batch_loop_outcomes.
  unfold nonblank. cbn [List.map filter].
  change (query_text py_repr (Py.VStr query)) with (strip query).
  rewrite Hquery. cbn [outcomes].
  rewrite (attempt_printable generate_content _ w Hprintable).
  destruct (KMLAgent.generate_kml generate_content (strip query) w)
    as [[kml0|e] w0]; cbn [fst snd successes failures flat_map app].
  - split.
    + intros kml w' [= <- <-]. reflexivity.
    + intros msg w' [=].
  - split.
    + intros kml w' [=].
    + intros msg w' [= <- <-]. reflexivity.
Qed.

Lemma single_and_batch_agree_witness :
  FlaskServer.generate_kml_batch Fixtures.scripted Fixtures.sample_repr
    (Py.VDict [(lit "queries", Py.VList [Py.VStr (lit " Fly to Paris ")])])
    [KMLAgent.Text Fixtures.sample_kml]
  = (Py.Returns
       (FlaskServer.Response
          (batch_body
             [FlaskServer.result_entry (strip (lit " Fly to Paris "))
                Fixtures.sample_kml] []) 200), []).
Proof.
  refine (proj1 (@single_and_batch_agree _ Fixtures.scripted
                   Fixtures.sample_repr (lit " Fly to Paris ")
                   [KMLAgent.Text Fixtures.sample_kml] _ _)
            Fixtures.sample_kml [] _); reflexivity.
Defined.

(** X13.  The validation handler reports on the document as it was sent:
    though it trims first, [valid] is the verdict of the validator on the
    submitted string, and [length], the length after trimming, never exceeds
    the length submitted. *)
Theorem validate_kml_verdict
  (W : Type) (data : Py.value) (s : str) (w : W) :
  has_field data (lit "kml") (Py.VStr s) ->
  FlaskServer.validate_kml data w
  = (Py.Returns
       (FlaskServer.Response
          (Py.VDict
             [(lit "valid", Py.VBool (KMLAgent._is_valid_kml s));
              (lit "length", Py.VInt (Z.of_nat (length (strip s))))]) 200),
     w)
  /\ (Z.of_nat (length (strip s)) <= Z.of_nat (length s))%Z.
Proof.
  intros [items [-> Hkml]]. split.
  - rewrite (validate_kml_string _ w Hkml). now rewrite is_valid_kml_strip.
  - apply Nat2Z.inj_le, occurs_in_length, strip_occurs.
Qed.

Lemma validate_kml_verdict_witness :
  FlaskServer.validate_kml
    (Py.VDict [(lit "kml", Py.VStr (nl ++ Fixtures.sample_kml ++ lit "  "))])
    tt
  = (Py.Returns
       (FlaskServer.Response
          (Py.VDict
             [(lit "valid",
               Py.VBool
                 (KMLAgent._is_valid_kml (nl ++ Fixtures.sample_kml ++ lit "  ")));
              (lit "length",
               Py.VInt
                 (Z.of_nat
                    (length (strip (nl ++ Fixtures.sample_kml ++ lit "  ")))))])
          200), tt).
Proof.
  refine (proj1 (@validate_kml_verdict unit _
                   (nl ++ Fixtures.sample_kml ++ lit "  ") tt _)).
  eexists; split; reflexivity.
Defined.

(** X14.  The validation handler answers 400 when the body is false in a
    test or is a JSON object without [kml], and 500 when [kml] is there but
    is not a string. *)
Theorem validate_kml_errors (W : Type) (data : Py.value) (w : W) :
  (Py.truth data = false \/ lacks_field data (lit "kml") ->
   FlaskServer.validate_kml data w
   = (Py.Returns
        (FlaskServer.error_response (lit "kml parameter is required") 400), w))
  /\ (forall v,
        has_field data (lit "kml") v -> (forall s, v <> Py.VStr s) ->
        FlaskServer.validate_kml data w
        = (Py.Returns
             (FlaskServer.error_response
                (Py.exn_str (Py.no_attribute v (lit "strip"))) 500), w)).
Proof.
  split.
  - intros [Hfalsy | [items [-> Hnone]]].
    + unfold FlaskServer.validate_kml, Py.try_except, Py.bind.
      now rewrite Hfalsy.
    + now rewrite validate_kml_dict, Hnone.
  - intros v [items [-> Hkml]] Hshape. rewrite validate_kml_dict, Hkml.
    destruct v as [|b|z|f|s|l|d]; try reflexivity. now elim (Hshape s).
Qed.

Lemma validate_kml_errors_witness :
  FlaskServer.validate_kml (Py.VDict [(lit "kml", Py.VNone)]) tt
  = (Py.Returns
       (FlaskServer.error_response
          (Py.exn_str (Py.no_attribute Py.VNone (lit "strip"))) 500), tt).
Proof.
  refine (proj2 (@validate_kml_errors unit _ tt) Py.VNone _ _).
  - eexists; split; reflexivity.
  - discriminate.
Defined.

(** X15.  Generation and validation agree: a document that [generate_kml]
    returned, sent as it is to the validation handler, is reported valid,
    with its own length. *)
Theorem generated_kml_validates
  (W : Type) (generate_content : str -> W -> KMLAgent.reply * W)
  (prompt kml : str) (w w' w2 : W) :
  KMLAgent.generate_kml generate_content prompt w = (Py.Returns kml, w') ->
  FlaskServer.validate_kml (Py.VDict [(lit "kml", Py.VStr kml)]) w2
  = (Py.Returns
       (FlaskServer.Response
          (Py.VDict [(lit "valid", Py.VBool true);
                     (lit "length", Py.VInt (Z.of_nat (length kml)))]) 200),
     w2).
Proof.
  intros Hrun.
  destruct (truthy (strip prompt)) eqn:Hprompt.
  - rewrite (generate_kml_run generate_content _ w Hprompt) in Hrun.
    destruct (generate_content _ w) as [[text|e] w1]; [|discriminate].
    destruct (truthy text); [|discriminate].
    destruct (KMLAgent._is_valid_kml (KMLAgent.strip_fences text)) eqn:Hvalid;
      [|discriminate].
    injection Hrun as <- _.
    rewrite validate_kml_dict.
    change (Py.lookup (lit "kml")
              [(lit "kml", Py.VStr (KMLAgent.strip_fences text))])
      with (Some (Py.VStr (KMLAgent.strip_fences text))).
    cbv iota. rewrite (strip_fences_trimmed text), Hvalid. reflexivity.
  - rewrite (generate_kml_blank generate_content _ w Hprompt) in Hrun.
    discriminate.
Qed.

Lemma generated_kml_validates_witness :
  FlaskServer.validate_kml
    (Py.VDict [(lit "kml", Py.VStr Fixtures.sample_kml)])
    [KMLAgent.Text Fixtures.sample_junk]
  = (Py.Returns
       (FlaskServer.Response
          (Py.VDict [(lit "valid", Py.VBool true);
                     (lit "length",
                      Py.VInt (Z.of_nat (length Fixtures.sample_kml)))]) 200),
     [KMLAgent.Text Fixtures.sample_junk]).
Proof.
  apply (@generated_kml_validates _ Fixtures.scripted
           (lit "Fly to Eiffel Tower") Fixtures.sample_kml
           [KMLAgent.Text (lit "```xml" ++ nl ++ Fixtures.sample_kml)] []).
  reflexivity.
Defined.

(** X16.  [KMLAgent.__init__] builds an agent exactly when some key is
    not empty.  The key it configures is the argument when the argument is
    not empty, and else the environment variable; so an empty argument falls
    back on the environment like a missing one.  The configured key is never
    empty.  Otherwise it raises ValueError. *)
Theorem init_key_selection
  (environ : str -> option str) (api_key : option str) :
  match Startup.__init__ environ api_key with
  | Py.Returns a =>
      truthy (Startup.api_key a) = true
      /\ Startup.model_name a = lit "gemini-3-flash-preview"
      /\ (api_key = Some (Startup.api_key a)
          \/ (Startup.optional_truth api_key = false
              /\ environ (lit "GOOGLE_API_KEY") = Some (Startup.api_key a)))
  | Py.Raises e =>
      (exists msg, e = Py.ValueError msg)
      /\ Startup.optional_truth api_key = false
      /\ Startup.optional_truth (environ (lit "GOOGLE_API_KEY")) = false
  end.
Proof.
  unfold Startup.__init__, Startup.or_else.
  destruct api_key as [[|c k]|]; cbn [Startup.optional_truth truthy].
  - destruct (environ (lit "GOOGLE_API_KEY")) as [[|c k]|];
      cbn [truthy negb Startup.api_key Startup.model_name
           Startup.optional_truth]; eauto 7.
  - cbn [truthy negb Startup.api_key Startup.model_name]. auto.
  - destruct (environ (lit "GOOGLE_API_KEY")) as [[|c k]|];
      cbn [truthy negb Startup.api_key Startup.model_name
           Startup.optional_truth]; eauto 7.
Qed.

(** X17.  The server starts serving exactly when GOOGLE_API_KEY is set to
    a string that is not empty, with that key; when the variable is missing
    or empty, the start-up ends in exit status 1. *)
Theorem flask_server_start_needs_key (environ : str -> option str) :
  (forall key,
      environ (lit "GOOGLE_API_KEY") = Some key -> truthy key = true ->
      Startup.flask_server_start environ
      = Startup.Serving (Startup.Agent key (lit "gemini-3-flash-preview")))
  /\ (Startup.optional_truth (environ (lit "GOOGLE_API_KEY")) = false ->
      Startup.flask_server_start environ = Startup.Exited 1).
Proof.
  unfold Startup.flask_server_start, Startup.__init__, Startup.or_else.
  split.
  - intros key -> Hkey. cbn [Startup.optional_truth]. rewrite Hkey.
    cbn [negb]. now rewrite Hkey.
  - destruct (environ (lit "GOOGLE_API_KEY")) as [[|c k]|];
      cbn [Startup.optional_truth truthy]; [reflexivity | discriminate
                                           | reflexivity].
Qed.

Lemma flask_server_start_needs_key_witness :
  Startup.flask_server_start (environ_with (Some (lit "secret")))
  = Startup.Serving (Startup.Agent (lit "secret") (lit "gemini-3-flash-preview"))
  /\ Startup.flask_server_start (environ_with (Some [])) = Startup.Exited 1.
Proof.
  split.
  - apply (proj1 (flask_server_start_needs_key
                    (environ_with (Some (lit "secret"))))); reflexivity.
  - apply (proj2 (flask_server_start_needs_key (environ_with (Some []))));
      reflexivity.
Defined.


